(** * Customer support ticket flow: the query tool and the staged flow

    A shallow embedding of
    - [crews/text_to_sql_crew/tools/text_to_sql_tool.py]: the input schema
      [SQLiteQueryInput] with its field validator [validate_query_safety],
      and the tool [SQLiteDatabaseTool] with its method [_run];
    - [main.py]: the flow [CustomerSupportTicketFlow] and its four methods.

    Python [str] values are embedded as [string]; the embedding covers text
    made of ASCII code points, on which [str.strip] and [str.upper] are the
    functions [strip] and [upper] below (a character above 127 is left as it
    is by [upper] and is no white space for [strip]). *)

From Stdlib Require Import String Ascii List ZArith Bool Arith Lia.
From Stdlib Require Import Numbers.DecimalString.
Import ListNotations.

Local Open Scope list_scope.
Local Open Scope string_scope.
Local Open Scope nat_scope.

(** ** Python strings *)

Module PyStr.

(** The line feed written [\n] in the source. *)
Definition nl : string := String (ascii_of_nat 10) EmptyString.

(** [str.isspace] on one ASCII character: TAB, LF, VT, FF, CR, the four
    separators FS, GS, RS, US, and the space. *)
Definition isspace (c : ascii) : bool :=
  let n := nat_of_ascii c in
  ((9 <=? n) && (n <=? 13)) || ((28 <=? n) && (n <=? 32)).

Fixpoint lstrip (s : string) : string :=
  match s with
  | EmptyString => EmptyString
  | String c s' => if isspace c then lstrip s' else s
  end.

Fixpoint rstrip (s : string) : string :=
  match s with
  | EmptyString => EmptyString
  | String c s' =>
      match rstrip s' with
      | EmptyString => if isspace c then EmptyString else String c EmptyString
      | r => String c r
      end
  end.

(** [s.strip()] *)
Definition strip (s : string) : string := lstrip (rstrip s).

Definition upper_char (c : ascii) : ascii :=
  let n := nat_of_ascii c in
  if (97 <=? n) && (n <=? 122) then ascii_of_nat (n - 32) else c.

(** [s.upper()] *)
Fixpoint upper (s : string) : string :=
  match s with
  | EmptyString => EmptyString
  | String c s' => String (upper_char c) (upper s')
  end.

Definition lower_char (c : ascii) : ascii :=
  let n := nat_of_ascii c in
  if (65 <=? n) && (n <=? 90) then ascii_of_nat (n + 32) else c.

(** [s.lower()] *)
Fixpoint lower (s : string) : string :=
  match s with
  | EmptyString => EmptyString
  | String c s' => String (lower_char c) (lower s')
  end.

(** [s.startswith(p)] *)
Definition startswith (s p : string) : bool := prefix p s.

(** [sub in s] *)
Fixpoint contains (sub s : string) : bool :=
  prefix sub s ||
  match s with
  | EmptyString => false
  | String _ s' => contains sub s'
  end.

(** [sep.join(parts)] *)
Fixpoint join (sep : string) (parts : list string) : string :=
  match parts with
  | [] => EmptyString
  | [p] => p
  | p :: rest => p ++ sep ++ join sep rest
  end.

(** [str(n)] for a length or a counter. *)
Definition str_nat (n : nat) : string := NilEmpty.string_of_uint (Nat.to_uint n).

(** [str(z)] for an integer. *)
Definition str_int (z : Z) : string := NilZero.string_of_int (Z.to_int z).

(** [s[:n]] *)
Definition slice_to (n : nat) (s : string) : string := substring 0 n s.

End PyStr.

Import PyStr.

(** ** Exceptions and results *)

(** The exceptions the modelled code can meet, all of them subclasses of
    Python's [Exception]; [Sqlite3Error] stands for [sqlite3.Error] and its
    subclasses, [OtherException] for any class not listed. Each carries the
    text [str(e)] gives. *)
Inductive PyExc : Type :=
| ValueError (msg : string)
| TypeError (msg : string)
| AttributeError (msg : string)
| IndexError (msg : string)
| Sqlite3Error (msg : string)
| OtherException (msg : string).

Definition str_exc (e : PyExc) : string :=
  match e with
  | ValueError m | TypeError m | AttributeError m | IndexError m
  | Sqlite3Error m | OtherException m => m
  end.

(** [isinstance(e, sqlite3.Error)] *)
Definition is_sqlite3_Error (e : PyExc) : bool :=
  match e with
  | Sqlite3Error _ => true
  | _ => false
  end.

(** ** The input schema: [SQLiteQueryInput] *)

Module Validator.

Definition dangerous_keywords : list string :=
  ["DROP"; "DELETE"; "INSERT"; "UPDATE"; "ALTER"; "CREATE"; "TRUNCATE"].

(** The two rejections of the validator, under the names the specification
    gives them. Both are [ValueError]s in the source. *)
Definition NotReadOnly : PyExc :=
  ValueError "Only SELECT queries are allowed for security reasons".

Definition ForbiddenKeyword (keyword : string) : PyExc :=
  ValueError ("Query contains forbidden keyword: " ++ keyword).

(** The loop [for keyword in dangerous_keywords: if keyword in query_upper: raise ...]. *)
Fixpoint for_keyword (keywords : list string) (query_upper : string) : PyExc + unit :=
  match keywords with
  | [] => inr tt
  | keyword :: rest =>
      if contains keyword query_upper
      then inl (ForbiddenKeyword keyword)
      else for_keyword rest query_upper
  end.

Definition validate_query_safety (v : string) : PyExc + string :=
  let query_upper := upper (strip v) in
  if negb (startswith query_upper "SELECT") then inl NotReadOnly
  else
    match for_keyword dangerous_keywords query_upper with
    | inl e => inl e
    | inr _ => inr v
    end.

Definition default_database_path : string := "data/customer_support_tickets.db".

Record SQLiteQueryInput : Type := mkInput {
  query : string;
  database_path : string
}.

(** Building the schema object from the raw arguments: the field validator
    runs on [query], and [database_path] takes its default when absent. *)
Definition parse_args (raw_query : string) (raw_path : option string)
  : PyExc + SQLiteQueryInput :=
  match validate_query_safety raw_query with
  | inl e => inl e
  | inr v =>
      inr {| query := v;
             database_path := match raw_path with
                              | Some p => p
                              | None => default_database_path
                              end |}
  end.

End Validator.

Import Validator.

(** ** Computations that log events and may raise *)

Section Effects.

Context {Event : Type}.

(** The outcome of a computation, raised exception or value, with the
    events it produced in order. *)
Definition M (A : Type) : Type := ((PyExc + A) * list Event)%type.

Definition ret {A : Type} (a : A) : M A := (inr a, []).

Definition raise {A : Type} (e : PyExc) : M A := (inl e, []).

Definition emit (ev : Event) : M unit := (inr tt, [ev]).

Definition lift {A : Type} (r : PyExc + A) : M A := (r, []).

Definition bind {A B : Type} (m : M A) (k : A -> M B) : M B :=
  match m with
  | (inl e, t) => (inl e, t)
  | (inr a, t) => let (r, t') := k a in (r, (t ++ t')%list)
  end.

End Effects.

Notation "x <- m ;; k" := (bind m (fun x => k))
  (at level 61, m at next level, right associativity).
Notation "m ;;; k" := (bind m (fun _ => k))
  (at level 61, right associativity).

(** ** The tool: [SQLiteDatabaseTool] *)

Module Gateway.

(** A value of a result row as [sqlite3] hands it over. [str] of a float or
    of a [bytes] object is the text the value carries. *)
Inductive sql_value : Type :=
| SqlNull
| SqlInteger (z : Z)
| SqlReal (repr : string)
| SqlText (s : string)
| SqlBlob (repr : string).

(** [str(value)] *)
Definition str_value (value : sql_value) : string :=
  match value with
  | SqlNull => "None"
  | SqlInteger z => str_int z
  | SqlReal r => r
  | SqlText s => s
  | SqlBlob r => r
  end.

(** A [sqlite3.Row]: the column names of the cursor's description, each with
    the row's value in that column. *)
Definition Row : Type := list (string * sql_value).

(** A Python [dict] from column name to value, in insertion order. *)
Definition dict : Type := list (string * sql_value).

Definition keys (d : dict) : list string := map fst d.

(** [d[k] = v]: an existing key keeps its place. *)
Fixpoint dict_setitem (d : dict) (k : string) (v : sql_value) : dict :=
  match d with
  | [] => [(k, v)]
  | (k', v') :: d' =>
      if String.eqb k' k then (k', v) :: d' else (k', v') :: dict_setitem d' k v
  end.

(** How [sqlite3.Row] compares a key with a column name. *)
Definition equal_ignore_case (a b : string) : bool :=
  String.eqb a b || String.eqb (lower a) (lower b).

(** [row[key]]: the first column whose name matches. *)
Fixpoint Row_getitem (row : Row) (key : string) : PyExc + sql_value :=
  match row with
  | [] => inl (IndexError "No item with that key")
  | (name, value) :: rest =>
      if equal_ignore_case key name then inr value else Row_getitem rest key
  end.

Fixpoint dict_update (d : dict) (row : Row) (ks : list string) : PyExc + dict :=
  match ks with
  | [] => inr d
  | key :: rest =>
      match Row_getitem row key with
      | inl e => inl e
      | inr value => dict_update (dict_setitem d key value) row rest
      end
  end.

(** [dict(row)] *)
Definition dict_of_Row (row : Row) : PyExc + dict :=
  dict_update [] row (map fst row).

(** [[dict(row) for row in rows]] *)
Fixpoint dicts_of_rows (rows : list Row) : PyExc + list dict :=
  match rows with
  | [] => inr []
  | row :: rest =>
      match dict_of_Row row with
      | inl e => inl e
      | inr d =>
          match dicts_of_rows rest with
          | inl e => inl e
          | inr ds => inr (d :: ds)
          end
      end
  end.

(** What the call does to the outside, in order. *)
Inductive Event : Type :=
| EvConnect (path : string)
| EvExecute (path query : string)
| EvCommit (path : string)
| EvRollback (path : string)
| EvLogError (msg : string).

(** The surroundings of a call: the file system and the SQLite library. *)
Record Env : Type := mkEnv {
  (** [str(project_root / database_path)] *)
  full_db_path : string -> string;
  (** [Path.exists]: its answer, or the exception it raises (a name too
      long, a directory that may not be searched) *)
  path_exists : string -> PyExc + bool;
  (** [sqlite3.connect]: the exception it raises, if any *)
  sqlite3_connect : string -> option PyExc;
  (** [cursor.execute(query)] then [cursor.fetchall()] on the file *)
  execute_fetchall : string -> string -> PyExc + list Row
}.

(** [with sqlite3.connect(path) as conn: body]: leaving the block commits,
    leaving it by an exception rolls back and lets the exception through. *)
Definition with_connect {A : Type} (env : Env) (path : string) (body : M A) : M A :=
  match sqlite3_connect env path with
  | Some e => raise e
  | None =>
      emit (EvConnect path) ;;;
      match body with
      | (inr a, t) => (inr a, (t ++ [EvCommit path])%list)
      | (inl e, t) => (inl e, (t ++ [EvRollback path])%list)
      end
  end.

(** The text shown for one value. *)
Definition display (value : sql_value) : string :=
  let display_value := str_value value in
  if 100 <? String.length display_value
  then slice_to 97 display_value ++ "..."
  else display_value.

(** One turn of [for key, value in row.items()]. *)
Definition add_field (result_summary : string) (item : string * sql_value) : string :=
  result_summary ++ "  " ++ fst item ++ ": " ++ display (snd item) ++ nl.

(** One turn of [for i, row in enumerate(..., 1)]. *)
Definition add_row (result_summary : string) (ir : nat * dict) : string :=
  fold_left add_field (snd ir)
    (result_summary ++ nl ++ "Row " ++ str_nat (fst ir) ++ ":" ++ nl).

(** [enumerate(l, start)] *)
Definition enumerate {A : Type} (l : list A) (start : nat) : list (nat * A) :=
  combine (seq start (List.length l)) l.

(** The report for a result that has rows. *)
Definition format_results (results : list dict) : string :=
  let result_summary :=
    "Query executed successfully. Retrieved " ++ str_nat (List.length results)
      ++ " row(s)." ++ nl ++ nl in
  let result_summary :=
    match results with
    | [] => result_summary
    | first :: _ =>
        result_summary ++ "Columns: " ++ join ", " (keys first) ++ nl ++ nl
    end in
  let max_display_rows := Nat.min 20 (List.length results) in
  let result_summary :=
    result_summary ++ "Sample results (showing first " ++ str_nat max_display_rows
      ++ " rows):" ++ nl in
  let result_summary :=
    fold_left add_row (enumerate (firstn max_display_rows results) 1) result_summary in
  if max_display_rows <? List.length results
  then result_summary ++ nl ++ "... and "
         ++ str_nat (List.length results - max_display_rows) ++ " more rows."
  else result_summary.

(** The body of the [try] block. *)
Definition run_try (env : Env) (query database_path : string) : M string :=
  let full := full_db_path env database_path in
  found <- lift (path_exists env full) ;;
  if negb found
  then ret ("Error: Database file not found at " ++ full)
  else
    with_connect env full
      (emit (EvExecute full query) ;;;
       rows <- lift (execute_fetchall env full query) ;;
       match rows with
       | [] => ret "Query executed successfully but returned no results."
       | _ =>
           results <- lift (dicts_of_rows rows) ;;
           ret (format_results results)
       end).

(** [SQLiteDatabaseTool._run]: the [try] block and its two handlers. *)
Definition _run (env : Env) (query database_path : string) : M string :=
  match run_try env query database_path with
  | (inr report, t) => (inr report, t)
  | (inl e, t) =>
      if is_sqlite3_Error e
      then
        let error_msg := "SQLite error: " ++ str_exc e in
        (inr error_msg, (t ++ [EvLogError error_msg])%list)
      else
        let error_msg := "Unexpected error executing query: " ++ str_exc e in
        (inr error_msg, (t ++ [EvLogError error_msg])%list)
  end.

(** A call of the tool through its [args_schema]: the raw arguments are
    parsed into a [SQLiteQueryInput], which runs the field validator, and
    the parsed fields are handed to [_run]. *)
Definition call_with_schema (env : Env) (raw_query : string) (raw_path : option string)
  : M string :=
  args <- lift (parse_args raw_query raw_path) ;;
  _run env (query args) (database_path args).

(** Whether the trace hands [q] to the store. *)
Definition executes (q : string) (t : list Event) : Prop :=
  exists path, In (EvExecute path q) t.

End Gateway.

Import Gateway.

(** ** The flow: [CustomerSupportTicketFlow] *)

Module Flow.

Record State : Type := mkState {
  database_structure : string;
  user_prompt : string;
  answer : string
}.

(** A row of the store's catalog [sqlite_master]. *)
Record MasterRow : Type := mkMasterRow {
  m_type : string;
  m_name : string;
  m_tbl_name : string;
  m_sql : string
}.

(** The store file, as far as the flow looks at it: its catalog. *)
Definition Database : Type := list MasterRow.

(** A data frame read from the CSV file: header and records. *)
Definition DataFrame : Type := (list string * list (list string))%type.

Inductive Event : Type :=
| EvPrint (msg : string)
| EvReadCsv (path : string)
| EvConnect (path : string)
| EvToSql (table : string)
| EvQuery (sql : string)
| EvCrewKickoff (user_prompt database_structure database_path : string)
| EvWriteFile (path content : string)
| EvClose (path : string).

(** The flow object [self]: its state and its attributes. [conn] and
    [cursor] are [None] until [load_dataset] binds them to the store file. *)
Record Self : Type := mkSelf {
  state : State;
  table_name : string;
  csv_data_path : string;
  database_path : string;
  conn : option string;
  cursor : option string
}.

(** [__init__] *)
Definition init (inputs_user_prompt : string) : Self :=
  let table_name := "customer_support_tickets" in
  {| state := {| database_structure := ""; user_prompt := inputs_user_prompt; answer := "" |};
     table_name := table_name;
     csv_data_path := "data/" ++ table_name ++ ".csv";
     database_path := "data/" ++ table_name ++ ".db";
     conn := None;
     cursor := None |}.

(** What a method runs in: the flow object, the store file and the events
    so far. *)
Record Sys : Type := mkSys {
  self : Self;
  store : Database;
  trace : list Event
}.

(** The libraries and the agent the flow calls. *)
Record Env : Type := mkEnv {
  (** [pd.read_csv(path, na_filter=False)] *)
  read_csv : string -> PyExc + DataFrame;
  (** [sqlite3.connect]: the exception it raises, if any *)
  connect : string -> option PyExc;
  (** [df.to_sql(table, conn, if_exists="replace", index=False)]: the
      declaration of the table it creates, or the exception it raises *)
  to_sql : DataFrame -> string -> PyExc + string;
  (** [TextToSqlCrew().crew().kickoff(inputs=...).raw] *)
  crew_kickoff : string -> string -> string -> PyExc + string;
  (** [open(path, "w").write(content)]: the exception it raises, if any *)
  write_file : string -> string -> option PyExc
}.

(** The outcome of a method: the system it leaves and the exception it
    raised, if any. *)
Definition Outcome : Type := (Sys * option PyExc)%type.

Definition log (ev : Event) (sys : Sys) : Sys :=
  {| self := self sys; store := store sys; trace := (trace sys ++ [ev])%list |}.

Definition set_self (s : Self) (sys : Sys) : Sys :=
  {| self := s; store := store sys; trace := trace sys |}.

Definition set_store (d : Database) (sys : Sys) : Sys :=
  {| self := self sys; store := d; trace := trace sys |}.

Definition is_table (name : string) (r : MasterRow) : bool :=
  String.eqb (m_type r) "table" && String.eqb (m_name r) name.

(** Whether a row of the catalog belongs to the table [name]: the row of the
    table itself, and the rows of its indexes and triggers, which name it in
    [tbl_name]. *)
Definition belongs_to (name : string) (r : MasterRow) : bool :=
  is_table name r || String.eqb (m_tbl_name r) name.

(** [if_exists="replace"]: the table of that name is dropped, and its
    indexes and triggers with it, then the table is created. *)
Definition replace_table (name sql : string) (d : Database) : Database :=
  (filter (fun r => negb (belongs_to name r)) d
     ++ [{| m_type := "table"; m_name := name; m_tbl_name := name; m_sql := sql |}])%list.

Definition load_dataset (env : Env) (sys : Sys) : Outcome :=
  let sys := log (EvPrint ">>> Loading dataset") sys in
  let sys := log (EvReadCsv (csv_data_path (self sys))) sys in
  match read_csv env (csv_data_path (self sys)) with
  | inl e => (sys, Some e)
  | inr df =>
      match connect env (database_path (self sys)) with
      | Some e => (sys, Some e)
      | None =>
          let s := self sys in
          let sys := log (EvConnect (database_path s)) sys in
          let sys :=
            set_self {| state := state s; table_name := table_name s;
                        csv_data_path := csv_data_path s;
                        database_path := database_path s;
                        conn := Some (database_path s);
                        cursor := Some (database_path s) |} sys in
          let sys := log (EvToSql (table_name s)) sys in
          match to_sql env df (table_name s) with
          | inl e => (sys, Some e)
          | inr sql => (set_store (replace_table (table_name s) sql (store sys)) sys, None)
          end
      end
  end.

(** The statement [inspect_database_structure] executes. *)
Definition catalog_query (name : string) : string :=
  "SELECT sql FROM sqlite_master WHERE type='table' AND name='" ++ name ++ "'".

(** [cursor.fetchone()] after that statement: the first matching row of the
    catalog, or [None]. *)
Definition fetchone (name : string) (d : Database) : option MasterRow :=
  find (is_table name) d.

(** The failure the specification calls TableNotFound: the source has no
    check of its own, the exception is the one Python raises when
    [fetchone()] gave [None] and the method subscripts it. *)
Definition TableNotFound : PyExc :=
  TypeError "'NoneType' object is not subscriptable".

Definition inspect_database_structure (env : Env) (sys : Sys) : Outcome :=
  let sys := log (EvPrint ">>> Inspecting database structure") sys in
  match cursor (self sys) with
  | None => (sys, Some (AttributeError "'NoneType' object has no attribute 'execute'"))
  | Some _ =>
      let s := self sys in
      let sys := log (EvQuery (catalog_query (table_name s))) sys in
      match fetchone (table_name s) (store sys) with
      | None => (sys, Some TableNotFound)
      | Some row =>
          let ddl := m_sql row in
          (set_self {| state := {| database_structure := ddl;
                                   user_prompt := user_prompt (state s);
                                   answer := answer (state s) |};
                       table_name := table_name s;
                       csv_data_path := csv_data_path s;
                       database_path := database_path s;
                       conn := conn s;
                       cursor := cursor s |} sys, None)
      end
  end.

Definition answer_user_prompt (env : Env) (sys : Sys) : Outcome :=
  let sys := log (EvPrint ">>> Answering user prompt") sys in
  let s := self sys in
  let sys :=
    log (EvCrewKickoff (user_prompt (state s)) (database_structure (state s))
           (database_path s)) sys in
  match crew_kickoff env (user_prompt (state s)) (database_structure (state s))
          (database_path s) with
  | inl e => (sys, Some e)
  | inr raw =>
      let sys :=
        set_self {| state := {| database_structure := database_structure (state s);
                                user_prompt := user_prompt (state s);
                                answer := raw |};
                    table_name := table_name s;
                    csv_data_path := csv_data_path s;
                    database_path := database_path s;
                    conn := conn s;
                    cursor := cursor s |} sys in
      match write_file env "executive_summary.md" raw with
      | Some e => (sys, Some e)
      | None => (log (EvWriteFile "executive_summary.md" raw) sys, None)
      end
  end.

Definition close_connection (env : Env) (sys : Sys) : Outcome :=
  let sys := log (EvPrint ">>> Closing connection") sys in
  match conn (self sys) with
  | None => (sys, Some (AttributeError "'NoneType' object has no attribute 'close'"))
  | Some path => (log (EvClose path) sys, None)
  end.

(** The methods of the flow and their decorators: [@start()] is [None],
    [@listen(m)] is [Some m]. *)
Inductive Method : Type :=
| m_load_dataset
| m_inspect_database_structure
| m_answer_user_prompt
| m_close_connection.

Definition trigger (m : Method) : option Method :=
  match m with
  | m_load_dataset => None
  | m_inspect_database_structure => Some m_load_dataset
  | m_answer_user_prompt => Some m_inspect_database_structure
  | m_close_connection => Some m_answer_user_prompt
  end.

Definition body (m : Method) : Env -> Sys -> Outcome :=
  match m with
  | m_load_dataset => load_dataset
  | m_inspect_database_structure => inspect_database_structure
  | m_answer_user_prompt => answer_user_prompt
  | m_close_connection => close_connection
  end.

(** The methods in the order the decorators chain them, from [m] on. *)
Definition chain_from (m : Method) : list Method :=
  match m with
  | m_load_dataset =>
      [m_load_dataset; m_inspect_database_structure; m_answer_user_prompt; m_close_connection]
  | m_inspect_database_structure =>
      [m_inspect_database_structure; m_answer_user_prompt; m_close_connection]
  | m_answer_user_prompt => [m_answer_user_prompt; m_close_connection]
  | m_close_connection => [m_close_connection]
  end.

(** A method runs when the one it listens to has returned; an exception
    ends the run. *)
Fixpoint run_methods (env : Env) (ms : list Method) (sys : Sys) : Outcome :=
  match ms with
  | [] => (sys, None)
  | m :: rest =>
      match body m env sys with
      | (sys', Some e) => (sys', Some e)
      | (sys', None) => run_methods env rest sys'
      end
  end.

(** [CustomerSupportTicketFlow().kickoff(inputs={"user_prompt": ...})] on a
    store file with catalog [d]. *)
Definition kickoff (env : Env) (inputs_user_prompt : string) (d : Database) : Outcome :=
  run_methods env (chain_from m_load_dataset)
    {| self := init inputs_user_prompt; store := d; trace := [] |}.

(** Whether the trace calls the agent. *)
Definition crew_invoked (t : list Event) : bool :=
  existsb (fun ev => match ev with EvCrewKickoff _ _ _ => true | _ => false end) t.

End Flow.


(** ** The whole-word reading of the keyword rule *)

Module SpecWords.

(** These definitions follow the specification's words, not the source: a
    keyword occurs "as a whole-word match" when an occurrence of it has no
    letter, digit or underscore right before it and none right after it. *)
Definition is_word_char (c : ascii) : bool :=
  let n := nat_of_ascii c in
  ((48 <=? n) && (n <=? 57)) || ((65 <=? n) && (n <=? 90))
  || ((97 <=? n) && (n <=? 122)) || (n =? 95).

Definition starts_with_word_char (s : string) : bool :=
  match s with
  | EmptyString => false
  | String c _ => is_word_char c
  end.

Fixpoint drop (n : nat) (s : string) : string :=
  match n, s with
  | S n', String _ s' => drop n' s'
  | _, _ => s
  end.

Fixpoint spec_whole_word_from (prev_is_word : bool) (keyword s : string) : bool :=
  (negb prev_is_word && prefix keyword s
   && negb (starts_with_word_char (drop (String.length keyword) s)))
  || match s with
     | EmptyString => false
     | String c s' => spec_whole_word_from (is_word_char c) keyword s'
     end.

(** Text made of white space only: what may stand before and after a
    statement without changing how it is read. *)
Fixpoint only_spaces (s : string) : bool :=
  match s with
  | EmptyString => true
  | String c s' => isspace c && only_spaces s'
  end.

Definition spec_whole_word_match (keyword s : string) : bool :=
  spec_whole_word_from false keyword s.

Definition spec_forbidden_whole_word (s : string) : bool :=
  existsb (fun keyword => spec_whole_word_match keyword s) dangerous_keywords.

End SpecWords.

Import SpecWords.

(** ** The parts of a report *)

Module ReportShape.

(** The pieces the loops of [_run] append, named so that a report can be
    written down as a whole. *)
Fixpoint flat (parts : list string) : string :=
  match parts with
  | [] => EmptyString
  | p :: rest => p ++ flat rest
  end.

(** The line of one field of a row. *)
Definition field_line (item : string * sql_value) : string :=
  "  " ++ fst item ++ ": " ++ display (snd item) ++ nl.

(** The block of one row: its heading and the lines of its fields. *)
Definition row_block (ir : nat * dict) : string :=
  nl ++ "Row " ++ str_nat (fst ir) ++ ":" ++ nl ++ flat (map field_line (snd ir)).

(** The first two paragraphs of a report: the count and the columns. *)
Definition report_head (total : nat) (first : dict) : string :=
  "Query executed successfully. Retrieved " ++ str_nat total ++ " row(s)." ++ nl ++ nl
  ++ "Columns: " ++ join ", " (keys first) ++ nl ++ nl.


(** What a handler of [_run] returns for the exception it caught. *)
Definition error_text (e : PyExc) : string :=
  if is_sqlite3_Error e
  then "SQLite error: " ++ str_exc e
  else "Unexpected error executing query: " ++ str_exc e.


End ReportShape.

Import ReportShape.

(** ** Stores and surroundings to run the model in *)

Module Fixtures.

(** Every file exists and opens; the store answers each statement with
    [answer]. *)
Definition env_answering (answer : string -> PyExc + list Row) : Gateway.Env :=
  {| full_db_path := fun p => "/srv/app/" ++ p;
     path_exists := fun _ => inr true;
     sqlite3_connect := fun _ => None;
     execute_fetchall := fun _ q => answer q |}.

Definition ticket (n : Z) : Row :=
  [("Ticket ID", SqlInteger n); ("Ticket Status", SqlText "Open")].

Fixpoint tickets (n : nat) : list Row :=
  match n with
  | 0 => []
  | S n' => (tickets n' ++ [ticket (Z.of_nat n)])%list
  end.

(** A store whose table has [n] tickets: any statement returns them all. *)
Definition env_tickets (n : nat) : Gateway.Env :=
  env_answering (fun _ => inr (tickets n)).

(** A file system that refuses names longer than 255 characters: looking
    such a path up raises an [OSError], which is no [sqlite3.Error]. Shorter
    paths exist. *)
Definition env_name_too_long : Gateway.Env :=
  {| full_db_path := fun p => "/srv/app/" ++ p;
     path_exists := fun p =>
       if 255 <? String.length p
       then inl (OtherException ("[Errno 36] File name too long: '" ++ p ++ "'"))
       else inr true;
     sqlite3_connect := fun _ => None;
     execute_fetchall := fun _ _ => inr [] |}.

(** A path of 300 characters. *)
Definition long_name : string :=
  flat (repeat "0123456789" 30).

(** No file exists. *)
Definition env_no_file : Gateway.Env :=
  {| full_db_path := fun p => "/srv/app/" ++ p;
     path_exists := fun _ => inr false;
     sqlite3_connect := fun _ => None;
     execute_fetchall := fun _ _ => inr [] |}.


(** A flow that has loaded its data set, before a store whose catalog is [d]. *)
Definition loaded (d : Flow.Database) : Flow.Sys :=
  let s := Flow.init "How many tickets are open?" in
  {| Flow.self :=
       {| Flow.state := Flow.state s;
          Flow.table_name := Flow.table_name s;
          Flow.csv_data_path := Flow.csv_data_path s;
          Flow.database_path := Flow.database_path s;
          Flow.conn := Some (Flow.database_path s);
          Flow.cursor := Some (Flow.database_path s) |};
     Flow.store := d;
     Flow.trace := [] |}.

(** A catalog with a table, yet none under the name the flow looks for. *)
Definition other_catalog : Flow.Database :=
  [{| Flow.m_type := "table"; Flow.m_name := "tickets_2019";
      Flow.m_tbl_name := "tickets_2019";
      Flow.m_sql := "CREATE TABLE tickets_2019 (id TEXT)" |};
   {| Flow.m_type := "index"; Flow.m_name := "customer_support_tickets";
      Flow.m_tbl_name := "tickets_2019";
      Flow.m_sql := "CREATE INDEX customer_support_tickets ON tickets_2019 (id)" |}].

(** The catalog an earlier run left: the flow's table under an older
    declaration, an index and a trigger on it, and another table with an
    index of its own. *)
Definition prior_catalog : Flow.Database :=
  [{| Flow.m_type := "table"; Flow.m_name := "customer_support_tickets";
      Flow.m_tbl_name := "customer_support_tickets";
      Flow.m_sql := "CREATE TABLE customer_support_tickets (id TEXT)" |};
   {| Flow.m_type := "index"; Flow.m_name := "ix_status";
      Flow.m_tbl_name := "customer_support_tickets";
      Flow.m_sql := "CREATE INDEX ix_status ON customer_support_tickets (id)" |};
   {| Flow.m_type := "table"; Flow.m_name := "tickets_2019";
      Flow.m_tbl_name := "tickets_2019";
      Flow.m_sql := "CREATE TABLE tickets_2019 (id TEXT)" |};
   {| Flow.m_type := "trigger"; Flow.m_name := "trg_audit";
      Flow.m_tbl_name := "customer_support_tickets";
      Flow.m_sql := "CREATE TRIGGER trg_audit AFTER INSERT ON customer_support_tickets BEGIN SELECT 1; END" |};
   {| Flow.m_type := "index"; Flow.m_name := "ix_2019_id";
      Flow.m_tbl_name := "tickets_2019";
      Flow.m_sql := "CREATE INDEX ix_2019_id ON tickets_2019 (id)" |}].

(** Surroundings of the flow in which every call succeeds. *)
Definition flow_env : Flow.Env :=
  {| Flow.read_csv := fun _ => inr (["Ticket ID"], [["1"]]);
     Flow.connect := fun _ => None;
     Flow.to_sql := fun _ name => inr ("CREATE TABLE " ++ name ++ " (x TEXT)");
     Flow.crew_kickoff := fun _ _ _ => inr "42 tickets are open.";
     Flow.write_file := fun _ _ => None |}.

End Fixtures.

Import Fixtures.

(** ** More surroundings: calls that fail *)

Module Failures.

(** The store file is there and opens, the statement names a table the
    store does not have. *)
Definition env_no_table : Gateway.Env :=
  env_answering (fun _ => inl (Sqlite3Error "no such table: tickets")).

(** The path exists and cannot be opened as a store, as a directory cannot. *)
Definition env_cannot_open : Gateway.Env :=
  {| full_db_path := fun p => "/srv/app/" ++ p;
     path_exists := fun _ => inr true;
     sqlite3_connect := fun _ => Some (Sqlite3Error "unable to open database file");
     execute_fetchall := fun _ _ => inr [] |}.

(** The CSV file cannot be read. *)
Definition flow_env_no_csv : Flow.Env :=
  {| Flow.read_csv := fun _ => inl (OtherException "No such file or directory");
     Flow.connect := Flow.connect flow_env;
     Flow.to_sql := Flow.to_sql flow_env;
     Flow.crew_kickoff := Flow.crew_kickoff flow_env;
     Flow.write_file := Flow.write_file flow_env |}.

(** The agent fails. *)
Definition flow_env_agent_fails : Flow.Env :=
  {| Flow.read_csv := Flow.read_csv flow_env;
     Flow.connect := Flow.connect flow_env;
     Flow.to_sql := Flow.to_sql flow_env;
     Flow.crew_kickoff := fun _ _ _ => inl (OtherException "agent stopped");
     Flow.write_file := Flow.write_file flow_env |}.

(** The summary file cannot be written. *)
Definition flow_env_read_only_disk : Flow.Env :=
  {| Flow.read_csv := Flow.read_csv flow_env;
     Flow.connect := Flow.connect flow_env;
     Flow.to_sql := Flow.to_sql flow_env;
     Flow.crew_kickoff := Flow.crew_kickoff flow_env;
     Flow.write_file := fun _ _ => Some (OtherException "Read-only file system") |}.

(** A flow object fresh from [__init__], before a store with catalog [d]. *)
Definition fresh (prompt : string) (d : Flow.Database) : Flow.Sys :=
  {| Flow.self := Flow.init prompt; Flow.store := d; Flow.trace := [] |}.

(** A row as [SELECT 1 AS x, 2 AS X, 3 AS x] returns it. *)
Definition row_repeated_names : Row :=
  [("x", SqlInteger 1); ("X", SqlInteger 2); ("x", SqlInteger 3)].

End Failures.

Import Failures.

(** Unfolds [_run] down to the calls of its surroundings. *)
Ltac run_unfold :=
  unfold _run, run_try, with_connect, bind, emit, lift, ret, raise.

(** * Properties *)

(** ** The model on concrete inputs *)

Example strip_example : strip "  select 1 " = "select 1".
Proof. reflexivity. Qed.

Example upper_example : upper "Select drop_rate" = "SELECT DROP_RATE".
Proof. reflexivity. Qed.

Example str_nat_example : str_nat 0 = "0" /\ str_nat 25 = "25" /\ str_int (-7) = "-7" /\ str_int 0 = "0".
Proof. repeat split; reflexivity. Qed.

Example validate_accepts : validate_query_safety "  select id from t  " = inr "  select id from t  ".
Proof. reflexivity. Qed.

Example validate_not_select : validate_query_safety "DROP TABLE t" = inl NotReadOnly.
Proof. reflexivity. Qed.

Example validate_literal : validate_query_safety "SELECT * FROM t WHERE x = 'DROP'" = inl (ForbiddenKeyword "DROP").
Proof. reflexivity. Qed.

Example validate_trailing_statement : validate_query_safety "SELECT 1; DROP TABLE x" = inl (ForbiddenKeyword "DROP").
Proof. reflexivity. Qed.

(** ** Strings *)

Lemma append_nil_r (s : string) : s ++ "" = s.
Proof.
  induction s as [|c s IH]; simpl; [reflexivity | now rewrite IH].
Qed.

Lemma append_assoc (a b c : string) : (a ++ b) ++ c = a ++ b ++ c.
Proof.
  induction a as [|x a IH]; simpl; [reflexivity | now rewrite IH].
Qed.

Lemma length_append (a b : string) :
  String.length (a ++ b) = String.length a + String.length b.
Proof.
  induction a as [|x a IH]; simpl; [reflexivity | now rewrite IH].
Qed.

(** [prefix p s] holds exactly when [s] is [p] followed by something. *)
Lemma prefix_spec (p s : string) :
  prefix p s = true <-> exists rest, s = p ++ rest.
Proof.
  revert s; induction p as [|c p IH]; intros s.
  - split; [intros _; now exists s | intros _; now destruct s].
  - destruct s as [|d s]; simpl.
    + split; [discriminate | intros [rest H]; discriminate].
    + destruct (Ascii.ascii_dec c d) as [->|Hne].
      * rewrite IH. split; intros [rest H]; exists rest.
        -- now rewrite H.
        -- now inversion H.
      * split; [discriminate | intros [rest H]; inversion H; subst; now elim Hne].
Qed.

Lemma prefix_append (p rest : string) : prefix p (p ++ rest) = true.
Proof.
  apply prefix_spec. now exists rest.
Qed.

(** [sub in s] holds exactly when [sub] occurs somewhere inside [s]. *)
Lemma contains_spec (sub s : string) :
  contains sub s = true <-> exists before after, s = before ++ sub ++ after.
Proof.
  induction s as [|c s IH]; cbn [contains].
  - rewrite orb_false_r, prefix_spec. split.
    + intros [rest H]. exists "", rest. exact H.
    + intros [before [after H]]. destruct before; simpl in H.
      * now exists after.
      * discriminate.
  - rewrite orb_true_iff, prefix_spec, IH. split.
    + intros [[rest H] | [before [after H]]].
      * exists "", rest. exact H.
      * exists (String c before), after. simpl. now rewrite H.
    + intros [before [after H]]. destruct before as [|d before]; simpl in H.
      * left. now exists after.
      * right. inversion H. now exists before, after.
Qed.

Lemma length_slice_to (n : nat) (s : string) :
  n <= String.length s -> String.length (slice_to n s) = n.
Proof.
  unfold slice_to. revert s; induction n as [|n IH]; intros s Hn.
  - destruct s; reflexivity.
  - destruct s as [|c s]; simpl in *; [lia|].
    rewrite IH; [reflexivity | lia].
Qed.


(** ** Trimming and upper-casing *)

Lemma isspace_upper_char (c : ascii) : isspace (upper_char c) = isspace c.
Proof.
  destruct c as [[] [] [] [] [] [] [] []]; reflexivity.
Qed.

Lemma upper_char_idempotent (c : ascii) : upper_char (upper_char c) = upper_char c.
Proof.
  destruct c as [[] [] [] [] [] [] [] []]; reflexivity.
Qed.

Lemma upper_idempotent (s : string) : upper (upper s) = upper s.
Proof.
  induction s as [|c s IH]; simpl; [reflexivity|].
  now rewrite upper_char_idempotent, IH.
Qed.

Lemma lstrip_upper (s : string) : lstrip (upper s) = upper (lstrip s).
Proof.
  induction s as [|c s IH]; simpl; [reflexivity|].
  rewrite isspace_upper_char. now destruct (isspace c).
Qed.

Lemma rstrip_upper (s : string) : rstrip (upper s) = upper (rstrip s).
Proof.
  induction s as [|c s IH]; simpl; [reflexivity|].
  rewrite IH, isspace_upper_char.
  destruct (rstrip s); simpl; [now destruct (isspace c) | reflexivity].
Qed.

(** Trimming and upper-casing can be done in either order. *)
Lemma strip_upper (s : string) : strip (upper s) = upper (strip s).
Proof.
  unfold strip. now rewrite rstrip_upper, lstrip_upper.
Qed.

Lemma rstrip_only_spaces (r : string) : only_spaces r = true -> rstrip r = "".
Proof.
  induction r as [|c r IH]; simpl; [reflexivity|].
  intros H. apply andb_true_iff in H. destruct H as [Hc Hr].
  now rewrite (IH Hr), Hc.
Qed.

Lemma rstrip_append_spaces (s r : string) :
  only_spaces r = true -> rstrip (s ++ r) = rstrip s.
Proof.
  intros Hr. induction s as [|c s IH]; simpl.
  - now apply rstrip_only_spaces.
  - now rewrite IH.
Qed.

Lemma strip_prepend_spaces (l s : string) :
  only_spaces l = true -> lstrip (rstrip (l ++ s)) = lstrip (rstrip s).
Proof.
  induction l as [|c l IH]; simpl; [reflexivity|].
  intros H. apply andb_true_iff in H. destruct H as [Hc Hl].
  specialize (IH Hl).
  destruct (rstrip (l ++ s)) as [|d t] eqn:Hr.
  - rewrite Hc. exact IH.
  - simpl. rewrite Hc. exact IH.
Qed.

Lemma rstrip_decompose (s : string) :
  exists r, s = rstrip s ++ r /\ only_spaces r = true.
Proof.
  induction s as [|c s [r [Hs Hr]]]; simpl.
  - now exists "".
  - destruct (rstrip s) as [|d t] eqn:Hrs.
    + simpl in Hs. subst s. destruct (isspace c) eqn:Hc.
      * exists (String c r). simpl. now rewrite Hc, Hr.
      * now exists r.
    + exists r. split; [|exact Hr]. simpl. now rewrite Hs at 1.
Qed.

Lemma lstrip_decompose (s : string) :
  exists l, s = l ++ lstrip s /\ only_spaces l = true.
Proof.
  induction s as [|c s [l [Hs Hl]]]; simpl.
  - now exists "".
  - destruct (isspace c) eqn:Hc.
    + exists (String c l). simpl. now rewrite Hc, Hl, <- Hs.
    + now exists "".
Qed.

(** [strip] only takes white space away, and only from the two ends. *)
Lemma strip_decompose (v : string) :
  exists l r, v = l ++ strip v ++ r /\ only_spaces l = true /\ only_spaces r = true.
Proof.
  destruct (rstrip_decompose v) as [r [Hv Hr]].
  destruct (lstrip_decompose (rstrip v)) as [l [Hrv Hl]].
  exists l, r. split; [|now split].
  unfold strip. rewrite <- append_assoc, <- Hrv. exact Hv.
Qed.

(** White space around a statement is trimmed away. *)
Lemma strip_padded (l v r : string) :
  only_spaces l = true -> only_spaces r = true -> strip (l ++ v ++ r) = strip v.
Proof.
  intros Hl Hr. unfold strip.
  rewrite (strip_prepend_spaces l (v ++ r) Hl). now rewrite rstrip_append_spaces.
Qed.

(** The text the validator looks at is the same for a statement, for the
    statement in another casing, and for either with white space around. *)
Lemma query_upper_padded_recased (l v w r : string) :
  only_spaces l = true -> only_spaces r = true -> upper w = upper v ->
  upper (strip (l ++ w ++ r)) = upper (strip v).
Proof.
  intros Hl Hr Hw. rewrite (strip_padded l w r Hl Hr).
  now rewrite <- !strip_upper, Hw.
Qed.

(** ** The query validator *)

Lemma forbidden_not_read_only (keyword : string) : ForbiddenKeyword keyword <> NotReadOnly.
Proof.
  unfold ForbiddenKeyword, NotReadOnly. simpl. intros H. discriminate H.
Qed.

Lemma forbidden_keyword_inj (k k' : string) :
  ForbiddenKeyword k = ForbiddenKeyword k' -> k = k'.
Proof.
  unfold ForbiddenKeyword. simpl. intros H. now inversion H.
Qed.

(** When the loop raises, it raises for a keyword of the list that occurs in
    the text. *)
Lemma for_keyword_raises (ks : list string) (q : string) (e : PyExc) :
  for_keyword ks q = inl e ->
  exists k, In k ks /\ contains k q = true /\ e = ForbiddenKeyword k.
Proof.
  induction ks as [|k ks IH]; simpl; [discriminate|].
  destruct (contains k q) eqn:Hk.
  - intros H. inversion H. exists k. auto.
  - intros H. destruct (IH H) as [k' [Hin [Hc He]]]. exists k'. auto.
Qed.

(** The loop runs through exactly when no keyword of the list occurs. *)
Lemma for_keyword_passes (ks : list string) (q : string) :
  for_keyword ks q = inr tt <-> forall k, In k ks -> contains k q = false.
Proof.
  induction ks as [|k ks IH]; simpl.
  - split; [intros _ k [] | reflexivity].
  - destruct (contains k q) eqn:Hk.
    + split; [discriminate|]. intros H. rewrite (H k) in Hk; [discriminate | now left].
    + rewrite IH. split.
      * intros H k' [<-|Hin]; auto.
      * intros H k' Hin. apply H. now right.
Qed.

(** A keyword of the list that occurs in the text makes the loop raise. *)
Lemma for_keyword_hit (ks : list string) (q k : string) :
  In k ks -> contains k q = true ->
  exists k', In k' ks /\ contains k' q = true /\ for_keyword ks q = inl (ForbiddenKeyword k').
Proof.
  intros Hin Hc. destruct (for_keyword ks q) as [e|[]] eqn:Hf.
  - destruct (for_keyword_raises _ _ _ Hf) as [k' [Hin' [Hc' ->]]]. now exists k'.
  - rewrite for_keyword_passes in Hf. rewrite (Hf k Hin) in Hc. discriminate.
Qed.

(** The three outcomes of the validator, by the two tests it makes. *)
Lemma validate_cases (v : string) :
  (startswith (upper (strip v)) "SELECT" = false /\ validate_query_safety v = inl NotReadOnly)
  \/ (startswith (upper (strip v)) "SELECT" = true /\
      exists k, In k dangerous_keywords /\ contains k (upper (strip v)) = true /\
                validate_query_safety v = inl (ForbiddenKeyword k))
  \/ (startswith (upper (strip v)) "SELECT" = true /\
      (forall k, In k dangerous_keywords -> contains k (upper (strip v)) = false) /\
      validate_query_safety v = inr v).
Proof.
  unfold validate_query_safety.
  destruct (startswith (upper (strip v)) "SELECT") eqn:Hs; cbn [negb].
  - right. destruct (for_keyword dangerous_keywords (upper (strip v))) as [e|[]] eqn:Hf.
    + left. split; [reflexivity|].
      destruct (for_keyword_raises _ _ _ Hf) as [k [Hin [Hc ->]]]. now exists k.
    + right. split; [reflexivity|]. split; [|reflexivity].
      now apply for_keyword_passes.
  - left. split; reflexivity.
Qed.

(** A call through the schema stops at a query the validator rejects:
    nothing reaches the file system or the store. *)
Lemma call_with_schema_rejected (env : Env) (raw_query : string) (raw_path : option string)
    (e : PyExc) :
  validate_query_safety raw_query = inl e ->
  call_with_schema env raw_query raw_path = (inl e, []).
Proof.
  intros H. unfold call_with_schema, parse_args, lift, bind. now rewrite H.
Qed.

(** A text that begins with SELECT and holds a keyword of the list is
    rejected for a keyword of the list that occurs in it. *)
Lemma validate_hit (v keyword : string) :
  startswith (upper (strip v)) "SELECT" = true ->
  In keyword dangerous_keywords ->
  contains keyword (upper (strip v)) = true ->
  exists k,
    In k dangerous_keywords /\ contains k (upper (strip v)) = true /\
    validate_query_safety v = inl (ForbiddenKeyword k).
Proof.
  intros Hsel Hin Hsub.
  destruct (validate_cases v) as [[Hs _] | [[_ H] | [_ [Hnone _]]]].
  - rewrite Hsel in Hs. discriminate.
  - exact H.
  - rewrite (Hnone keyword Hin) in Hsub. discriminate.
Qed.

(** C5. A string whose trimmed, upper-cased form does not begin with SELECT is
    rejected with NotReadOnly and never accepted; so is the same string in
    any other casing and with any white space before and after it. *)
Theorem not_select_rejected (v : string) :
  (forall rest, upper (strip v) <> "SELECT" ++ rest) ->
  validate_query_safety v = inl NotReadOnly /\
  validate_query_safety v <> inr v /\
  forall l w r,
    only_spaces l = true -> only_spaces r = true -> upper w = upper v ->
    validate_query_safety (l ++ w ++ r) = inl NotReadOnly.
Proof.
  intros Hno.
  assert (Hs : startswith (upper (strip v)) "SELECT" = false).
  { unfold startswith. destruct (prefix "SELECT" (upper (strip v))) eqn:Hp; [|reflexivity].
    apply prefix_spec in Hp. destruct Hp as [rest Hp]. now elim (Hno rest). }
  split; [|split].
  - unfold validate_query_safety. now rewrite Hs.
  - unfold validate_query_safety. rewrite Hs. discriminate.
  - intros l w r Hl Hr Hw. unfold validate_query_safety.
    now rewrite (query_upper_padded_recased l v w r Hl Hr Hw), Hs.
Qed.

Lemma not_select_rejected_witness :
  validate_query_safety "  drop table t " = inl NotReadOnly /\
  validate_query_safety "  drop table t " <> inr "  drop table t " /\
  forall l w r,
    only_spaces l = true -> only_spaces r = true -> upper w = upper "  drop table t " ->
    validate_query_safety (l ++ w ++ r) = inl NotReadOnly.
Proof.
  apply (not_select_rejected "  drop table t ").
  intros rest H. vm_compute in H. discriminate H.
Defined.

(** C2, the claim as stated fails: in [SELECT drop_rate FROM t] no keyword
    stands as a whole word, and the validator rejects it all the same. *)
Lemma whole_word_claim_fails :
  spec_forbidden_whole_word (upper (strip "SELECT drop_rate FROM t")) = false /\
  validate_query_safety "SELECT drop_rate FROM t" = inl (ForbiddenKeyword "DROP").
Proof.
  split; reflexivity.
Qed.

(** C2, amended. The validator fails with ForbiddenKeyword exactly when the
    trimmed, upper-cased text begins with SELECT and one of the seven
    keywords occurs in it as a substring, whether or not it stands as a word
    of its own. *)
Theorem forbidden_keyword_iff_substring (v : string) :
  (exists k, validate_query_safety v = inl (ForbiddenKeyword k)) <->
  ((exists rest, upper (strip v) = "SELECT" ++ rest) /\
   exists k before after,
     In k dangerous_keywords /\ upper (strip v) = before ++ k ++ after).
Proof.
  split.
  - intros [k Hv].
    destruct (validate_cases v) as [[_ Hn] | [[Hs [k' [Hk [Hc Hv']]]] | [_ [_ Ha]]]].
    + rewrite Hn in Hv. inversion Hv.
    + split; [now apply prefix_spec|].
      apply contains_spec in Hc. destruct Hc as [before [after Hc]].
      now exists k', before, after.
    + rewrite Ha in Hv. discriminate.
  - intros [Hsel [k [before [after [Hin Hsub]]]]].
    apply prefix_spec in Hsel.
    assert (Hc : contains k (upper (strip v)) = true)
      by (apply contains_spec; now exists before, after).
    destruct (validate_hit v k Hsel Hin Hc) as [k' [_ [_ Hv]]].
    now exists k'.
Qed.

(** ** Rows and dictionaries *)

Lemma equal_ignore_case_refl (k : string) : equal_ignore_case k k = true.
Proof.
  unfold equal_ignore_case. now rewrite String.eqb_refl.
Qed.

(** Looking a row up under one of its own column names finds a value. *)
Lemma Row_getitem_found (row : Row) (key : string) :
  In key (map fst row) -> exists value, Row_getitem row key = inr value.
Proof.
  induction row as [|[name value] row IH]; simpl; [intros []|].
  intros [->|Hin].
  - rewrite equal_ignore_case_refl. eauto.
  - destruct (equal_ignore_case key name); eauto.
Qed.

Lemma dict_update_total (row : Row) (ks : list string) :
  (forall k, In k ks -> In k (map fst row)) ->
  forall d, exists d', dict_update d row ks = inr d'.
Proof.
  induction ks as [|k ks IH]; intros Hks d; simpl.
  - eauto.
  - destruct (Row_getitem_found row k) as [value ->].
    + apply Hks. now left.
    + apply IH. intros k' Hin. apply Hks. now right.
Qed.

(** [dict(row)] never raises. *)
Lemma dict_of_Row_total (row : Row) : exists d, dict_of_Row row = inr d.
Proof.
  unfold dict_of_Row. apply dict_update_total. auto.
Qed.

(** The list comprehension never raises and keeps the number of rows. *)
Lemma dicts_of_rows_total (rows : list Row) :
  exists results,
    dicts_of_rows rows = inr results /\ List.length results = List.length rows.
Proof.
  induction rows as [|row rows [results [IH Hlen]]]; simpl.
  - exists []. auto.
  - destruct (dict_of_Row_total row) as [d ->]. rewrite IH.
    exists (d :: results). simpl. auto.
Qed.

(** ** The loops of the report *)

Lemma add_field_line (acc : string) (item : string * sql_value) :
  add_field acc item = acc ++ field_line item.
Proof.
  reflexivity.
Qed.

Lemma fold_add_field (row : dict) (acc : string) :
  fold_left add_field row acc = acc ++ flat (map field_line row).
Proof.
  revert acc; induction row as [|item row IH]; intros acc; cbn [fold_left map flat].
  - now rewrite append_nil_r.
  - now rewrite IH, add_field_line, append_assoc.
Qed.

Lemma add_row_block (acc : string) (ir : nat * dict) :
  add_row acc ir = acc ++ row_block ir.
Proof.
  unfold add_row, row_block. rewrite fold_add_field. now rewrite !append_assoc.
Qed.

Lemma fold_add_row (l : list (nat * dict)) (acc : string) :
  fold_left add_row l acc = acc ++ flat (map row_block l).
Proof.
  revert acc; induction l as [|ir l IH]; intros acc; cbn [fold_left map flat].
  - now rewrite append_nil_r.
  - now rewrite IH, add_row_block, append_assoc.
Qed.

Lemma length_enumerate {A : Type} (l : list A) (start : nat) :
  List.length (enumerate l start) = List.length l.
Proof.
  unfold enumerate. rewrite length_combine, length_seq. apply Nat.min_id.
Qed.

(** [enumerate] numbers the elements from [start] on, in order. *)
Lemma nth_error_enumerate {A : Type} (l : list A) (start i : nat) (a : A) :
  nth_error l i = Some a -> nth_error (enumerate l start) i = Some (start + i, a).
Proof.
  unfold enumerate. revert start i; induction l as [|x l IH]; intros start i H.
  - destruct i; discriminate.
  - destruct i as [|i]; simpl in *.
    + inversion H. now rewrite Nat.add_0_r.
    + rewrite (IH (S start) i H). f_equal. f_equal. lia.
Qed.

(** The report for a result with rows, written down as a whole. *)
Lemma format_results_shape (first : dict) (rest : list dict) :
  format_results (first :: rest) =
    report_head (List.length (first :: rest)) first
    ++ "Sample results (showing first "
    ++ str_nat (Nat.min 20 (List.length (first :: rest))) ++ " rows):" ++ nl
    ++ flat (map row_block
               (enumerate (firstn (Nat.min 20 (List.length (first :: rest))) (first :: rest)) 1))
    ++ (if Nat.min 20 (List.length (first :: rest)) <? List.length (first :: rest)
        then nl ++ "... and "
             ++ str_nat (List.length (first :: rest) - Nat.min 20 (List.length (first :: rest)))
             ++ " more rows."
        else "").
Proof.
  unfold format_results, report_head. cbv beta iota zeta.
  rewrite fold_add_row.
  destruct (Nat.min 20 (List.length (first :: rest)) <? List.length (first :: rest)).
  - now rewrite !append_assoc.
  - now rewrite append_nil_r, !append_assoc.
Qed.

(** ** The ways through [_run] *)

Lemma run_no_file (env : Gateway.Env) (query database_path : string) :
  path_exists env (full_db_path env database_path) = inr false ->
  _run env query database_path =
    (inr ("Error: Database file not found at " ++ full_db_path env database_path), []).
Proof.
  intros Hp. run_unfold. now rewrite Hp.
Qed.

Lemma run_exists_raises (env : Gateway.Env) (query database_path : string) (e : PyExc) :
  path_exists env (full_db_path env database_path) = inl e ->
  _run env query database_path = (inr (error_text e), [EvLogError (error_text e)]).
Proof.
  intros Hp. run_unfold. rewrite Hp. unfold error_text.
  now destruct (is_sqlite3_Error e).
Qed.

Lemma run_connect_raises (env : Gateway.Env) (query database_path : string) (e : PyExc) :
  path_exists env (full_db_path env database_path) = inr true ->
  sqlite3_connect env (full_db_path env database_path) = Some e ->
  _run env query database_path = (inr (error_text e), [EvLogError (error_text e)]).
Proof.
  intros Hp Hc. run_unfold. rewrite Hp, Hc. cbn [negb]. unfold error_text.
  now destruct (is_sqlite3_Error e).
Qed.

Lemma run_execute_raises (env : Gateway.Env) (query database_path : string) (e : PyExc) :
  path_exists env (full_db_path env database_path) = inr true ->
  sqlite3_connect env (full_db_path env database_path) = None ->
  execute_fetchall env (full_db_path env database_path) query = inl e ->
  _run env query database_path =
    (inr (error_text e),
     [EvConnect (full_db_path env database_path);
      EvExecute (full_db_path env database_path) query;
      EvRollback (full_db_path env database_path);
      EvLogError (error_text e)]).
Proof.
  intros Hp Hc He. run_unfold. rewrite Hp, Hc, He. cbn [negb app]. unfold error_text.
  now destruct (is_sqlite3_Error e).
Qed.

Lemma run_execute_returns (env : Gateway.Env) (query database_path : string) (rows : list Row) :
  path_exists env (full_db_path env database_path) = inr true ->
  sqlite3_connect env (full_db_path env database_path) = None ->
  execute_fetchall env (full_db_path env database_path) query = inr rows ->
  exists results,
    dicts_of_rows rows = inr results /\
    List.length results = List.length rows /\
    _run env query database_path =
      (inr (match results with
            | [] => "Query executed successfully but returned no results."
            | _ :: _ => format_results results
            end),
       [EvConnect (full_db_path env database_path);
        EvExecute (full_db_path env database_path) query;
        EvCommit (full_db_path env database_path)]).
Proof.
  intros Hp Hc He.
  destruct (dicts_of_rows_total rows) as [results [Hd Hlen]].
  exists results. split; [exact Hd|]. split; [exact Hlen|].
  run_unfold. rewrite Hp, Hc, He. cbn [negb app].
  destruct rows as [|row rows].
  - destruct results; [reflexivity | discriminate].
  - rewrite Hd. destruct results; [discriminate | reflexivity].
Qed.

(** With the file there and the connection open, the statement reaches the
    store whatever it is. *)
Lemma run_executes (env : Gateway.Env) (query database_path : string) :
  path_exists env (full_db_path env database_path) = inr true ->
  sqlite3_connect env (full_db_path env database_path) = None ->
  executes query (snd (_run env query database_path)).
Proof.
  intros Hp Hc. exists (full_db_path env database_path).
  destruct (execute_fetchall env (full_db_path env database_path) query) as [e|rows] eqn:He.
  - rewrite (run_execute_raises _ _ _ _ Hp Hc He). simpl. auto.
  - destruct (run_execute_returns _ _ _ _ Hp Hc He) as [results [_ [_ ->]]]. simpl. auto.
Qed.




Lemma error_text_by_class (e : PyExc) :
  error_text e =
    (if is_sqlite3_Error e then "SQLite error: " else "Unexpected error executing query: ")
    ++ str_exc e.
Proof.
  unfold error_text. now destruct (is_sqlite3_Error e).
Qed.

(** ** The gateway *)

(** C1, the claim as stated fails: the validator rejects the string, and
    [_run], called with it, hands it to the store. *)
Lemma forbidden_string_reaches_store :
  validate_query_safety "SELECT * FROM t WHERE x = 'DROP'" = inl (ForbiddenKeyword "DROP") /\
  snd (_run (env_tickets 1) "SELECT * FROM t WHERE x = 'DROP'" default_database_path) =
    [EvConnect "/srv/app/data/customer_support_tickets.db";
     EvExecute "/srv/app/data/customer_support_tickets.db"
       "SELECT * FROM t WHERE x = 'DROP'";
     EvCommit "/srv/app/data/customer_support_tickets.db"].
Proof.
  split; reflexivity.
Qed.

(** C1, amended. A string whose trimmed, upper-cased form begins with SELECT
    and has a forbidden keyword somewhere inside it, in a literal or in a
    trailing statement alike, is rejected by the validator with
    ForbiddenKeyword for a keyword of the list that occurs in it, and is
    never accepted; a call through the schema raises that error before
    anything is executed. [_run] does not validate: called with such a
    string, the store file there and the connection open, it executes it. *)
Theorem forbidden_keyword_rejected (v keyword : string) :
  (exists rest, upper (strip v) = "SELECT" ++ rest) ->
  In keyword dangerous_keywords ->
  (exists before after, upper (strip v) = before ++ keyword ++ after) ->
  exists k,
    In k dangerous_keywords /\
    contains k (upper (strip v)) = true /\
    validate_query_safety v = inl (ForbiddenKeyword k) /\
    validate_query_safety v <> inr v /\
    (forall env raw_path,
       call_with_schema env v raw_path = (inl (ForbiddenKeyword k), [])) /\
    (forall env database_path,
       path_exists env (full_db_path env database_path) = inr true ->
       sqlite3_connect env (full_db_path env database_path) = None ->
       executes v (snd (_run env v database_path))).
Proof.
  intros Hsel Hin Hsub.
  apply prefix_spec in Hsel. apply contains_spec in Hsub.
  destruct (validate_hit v keyword Hsel Hin Hsub) as [k [Hk [Hc Hv]]].
  exists k. repeat split; auto.
  - rewrite Hv. discriminate.
  - intros env raw_path. now apply call_with_schema_rejected.
  - intros env database_path. apply run_executes.
Qed.

Lemma forbidden_keyword_rejected_witness :
  exists k,
    In k dangerous_keywords /\
    contains k (upper (strip "SELECT * FROM t WHERE x = 'DROP'")) = true /\
    validate_query_safety "SELECT * FROM t WHERE x = 'DROP'" = inl (ForbiddenKeyword k) /\
    validate_query_safety "SELECT * FROM t WHERE x = 'DROP'"
      <> inr "SELECT * FROM t WHERE x = 'DROP'" /\
    (forall env raw_path,
       call_with_schema env "SELECT * FROM t WHERE x = 'DROP'" raw_path
         = (inl (ForbiddenKeyword k), [])) /\
    (forall env database_path,
       path_exists env (full_db_path env database_path) = inr true ->
       sqlite3_connect env (full_db_path env database_path) = None ->
       executes "SELECT * FROM t WHERE x = 'DROP'"
         (snd (_run env "SELECT * FROM t WHERE x = 'DROP'" database_path))).
Proof.
  apply (forbidden_keyword_rejected "SELECT * FROM t WHERE x = 'DROP'" "DROP").
  - exists " * FROM T WHERE X = 'DROP'". reflexivity.
  - simpl. auto.
  - exists "SELECT * FROM T WHERE X = '", "'". reflexivity.
Defined.

(** C3, the claim as stated fails: [_run], called with a statement the
    validator rejects, hands it to the store. *)
Lemma run_does_not_validate :
  validate_query_safety "DROP TABLE customer_support_tickets" = inl NotReadOnly /\
  snd (_run (env_tickets 1) "DROP TABLE customer_support_tickets" default_database_path) =
    [EvConnect "/srv/app/data/customer_support_tickets.db";
     EvExecute "/srv/app/data/customer_support_tickets.db"
       "DROP TABLE customer_support_tickets";
     EvCommit "/srv/app/data/customer_support_tickets.db"].
Proof.
  split; reflexivity.
Qed.

(** C3, amended. The validation rules are applied by the input schema, not
    by [_run]: a call through the schema with a query the validator rejects
    raises the validator's error and executes nothing, while [_run] called
    directly, with the store file there and the connection open, hands that
    same query to the store. *)
Theorem validation_lives_in_schema (env : Gateway.Env) (raw_query : string)
    (raw_path : option string) (database_path : string) (e : PyExc) :
  validate_query_safety raw_query = inl e ->
  call_with_schema env raw_query raw_path = (inl e, []) /\
  ~ executes raw_query (snd (call_with_schema env raw_query raw_path)) /\
  (path_exists env (full_db_path env database_path) = inr true ->
   sqlite3_connect env (full_db_path env database_path) = None ->
   executes raw_query (snd (_run env raw_query database_path))).
Proof.
  intros Hv. rewrite (call_with_schema_rejected env raw_query raw_path e Hv).
  split; [reflexivity|]. split.
  - intros [path []].
  - apply run_executes.
Qed.

Lemma validation_lives_in_schema_witness :
  call_with_schema (env_tickets 1) "DROP TABLE customer_support_tickets" None
    = (inl NotReadOnly, []) /\
  ~ executes "DROP TABLE customer_support_tickets"
      (snd (call_with_schema (env_tickets 1) "DROP TABLE customer_support_tickets" None)) /\
  (path_exists (env_tickets 1) (full_db_path (env_tickets 1) default_database_path) = inr true ->
   sqlite3_connect (env_tickets 1) (full_db_path (env_tickets 1) default_database_path) = None ->
   executes "DROP TABLE customer_support_tickets"
     (snd (_run (env_tickets 1) "DROP TABLE customer_support_tickets" default_database_path))).
Proof.
  apply (validation_lives_in_schema (env_tickets 1) "DROP TABLE customer_support_tickets"
           None default_database_path NotReadOnly).
  reflexivity.
Defined.



(** C6, the claim as stated fails: a path whose name is too long refers to
    no file, and the report does not begin with "Error: Database file not
    found": looking the path up raises, the generic handler answers and logs
    its text. *)
Lemma missing_store_lookup_raises :
  _run env_name_too_long "SELECT 1" long_name =
    (inr ("Unexpected error executing query: [Errno 36] File name too long: '"
          ++ "/srv/app/" ++ long_name ++ "'"),
     [EvLogError ("Unexpected error executing query: [Errno 36] File name too long: '"
                  ++ "/srv/app/" ++ long_name ++ "'")]) /\
  startswith
    ("Unexpected error executing query: [Errno 36] File name too long: '"
     ++ "/srv/app/" ++ long_name ++ "'") "Error: Database file not found" = false.
Proof.
  split; reflexivity.
Qed.

(** C6, amended. When looking the resolved path up does not find a file,
    [_run] raises nothing, opens no connection and executes nothing. When
    the lookup answers that there is no such file, it returns the text
    "Error: Database file not found at " followed by the path and does
    nothing else; when the lookup itself raises, it returns the text of the
    exception behind the prefix of its class ("Unexpected error executing
    query: " unless it is an [sqlite3.Error]) and logs that text. *)
Theorem missing_store_reported (env : Gateway.Env) (query database_path : string) :
  path_exists env (full_db_path env database_path) <> inr true ->
  exists report t,
    _run env query database_path = (inr report, t) /\
    ~ executes query t /\
    (forall path, ~ In (EvConnect path) t) /\
    (path_exists env (full_db_path env database_path) = inr false ->
     report = "Error: Database file not found at " ++ full_db_path env database_path /\
     startswith report "Error: Database file not found" = true /\
     t = []) /\
    (forall e,
       path_exists env (full_db_path env database_path) = inl e ->
       report = (if is_sqlite3_Error e
                 then "SQLite error: "
                 else "Unexpected error executing query: ") ++ str_exc e /\
       t = [EvLogError report]).
Proof.
  intros Hp.
  destruct (path_exists env (full_db_path env database_path)) as [e|[|]] eqn:Hx.
  - eexists _, _. split; [apply (run_exists_raises _ _ _ e Hx)|].
    split; [intros [path [H|[]]]; discriminate H|].
    split; [intros path [H|[]]; discriminate H|].
    split; [discriminate|].
    intros e' He'. inversion He'; subst e'. split; [apply error_text_by_class | reflexivity].
  - now elim Hp.
  - eexists _, _. split; [apply (run_no_file _ _ _ Hx)|].
    split; [intros [path []]|]. split; [intros path []|].
    split; [|discriminate].
    intros _. split; [reflexivity|]. split; [|reflexivity].
    unfold startswith.
    change "Error: Database file not found at "
      with ("Error: Database file not found" ++ " at ").
    rewrite append_assoc. apply prefix_append.
Qed.

Lemma missing_store_reported_witness :
  _run env_no_file "SELECT 1" default_database_path =
    (inr ("Error: Database file not found at "
          ++ full_db_path env_no_file default_database_path), []).
Proof.
  destruct (missing_store_reported env_no_file "SELECT 1" default_database_path)
    as [report [t [Hrun [_ [_ [Hno _]]]]]].
  - discriminate.
  - destruct (Hno eq_refl) as [Hr [_ Ht]]. rewrite Hrun, Hr, Ht. reflexivity.
Defined.

(** C7. A result of more than 20 rows is reported with the full count of
    rows in its first line, exactly 20 row blocks, the block of the i-th row
    headed [Row i], and a last line that tells how many rows were left out:
    the count less 20. *)
Theorem sample_capped_at_twenty (env : Gateway.Env) (query database_path : string)
    (rows : list Row) :
  path_exists env (full_db_path env database_path) = inr true ->
  sqlite3_connect env (full_db_path env database_path) = None ->
  execute_fetchall env (full_db_path env database_path) query = inr rows ->
  20 < List.length rows ->
  exists results first blocks,
    dicts_of_rows rows = inr results /\
    nth_error results 0 = Some first /\
    List.length blocks = 20 /\
    (forall i d, i < 20 -> nth_error results i = Some d ->
                 nth_error blocks i = Some (row_block (S i, d))) /\
    fst (_run env query database_path) =
      inr (report_head (List.length rows) first
           ++ "Sample results (showing first 20 rows):" ++ nl
           ++ flat blocks
           ++ nl ++ "... and " ++ str_nat (List.length rows - 20) ++ " more rows.").
Proof.
  intros Hp Hc He Hn.
  destruct (run_execute_returns _ _ _ _ Hp Hc He) as [results [Hd [Hlen Hrun]]].
  destruct results as [|first rest]; [simpl in Hlen; lia|].
  exists (first :: rest), first,
    (map row_block (enumerate (firstn 20 (first :: rest)) 1)).
  split; [exact Hd|]. split; [reflexivity|]. split; [|split].
  - rewrite length_map, length_enumerate, length_firstn. lia.
  - intros i d Hi Hnth. apply map_nth_error.
    change (S i) with (1 + i). apply nth_error_enumerate.
    rewrite nth_error_firstn. apply Nat.ltb_lt in Hi. now rewrite Hi.
  - rewrite Hrun. cbn [fst]. rewrite format_results_shape, Hlen.
    replace (Nat.min 20 (List.length rows)) with 20 by lia.
    apply Nat.ltb_lt in Hn. rewrite Hn. reflexivity.
Qed.

Lemma sample_capped_at_twenty_witness :
  exists first blocks,
    List.length blocks = 20 /\
    fst (_run (env_tickets 25) "SELECT * FROM customer_support_tickets" default_database_path) =
      inr (report_head 25 first
           ++ "Sample results (showing first 20 rows):" ++ nl
           ++ flat blocks
           ++ nl ++ "... and 5 more rows.").
Proof.
  destruct (sample_capped_at_twenty (env_tickets 25)
              "SELECT * FROM customer_support_tickets" default_database_path (tickets 25))
    as [results [first [blocks [_ [_ [Hlen [_ Hrun]]]]]]].
  - reflexivity.
  - reflexivity.
  - reflexivity.
  - simpl. lia.
  - exists first, blocks. split; [exact Hlen | exact Hrun].
Defined.

Lemma display_short (value : sql_value) :
  String.length (str_value value) <= 100 -> display value = str_value value.
Proof.
  intros H. unfold display. apply Nat.ltb_ge in H. now rewrite H.
Qed.





(** ** The flow *)

Lemma is_table_spec (name : string) (r : Flow.MasterRow) :
  Flow.is_table name r = true <-> Flow.m_type r = "table" /\ Flow.m_name r = name.
Proof.
  unfold Flow.is_table. rewrite andb_true_iff, !String.eqb_eq. reflexivity.
Qed.

(** [fetchone()] gives [None] exactly when the catalog has no table of that
    name. *)
Lemma fetchone_none (name : string) (d : Flow.Database) :
  Flow.fetchone name d = None <->
  forall r, In r d -> Flow.m_type r = "table" -> Flow.m_name r <> name.
Proof.
  unfold Flow.fetchone. induction d as [|r d IH]; simpl.
  - split; [intros _ r [] | reflexivity].
  - destruct (Flow.is_table name r) eqn:Ht.
    + split; [discriminate|]. intros H. apply is_table_spec in Ht. destruct Ht as [Ht Hn].
      now elim (H r (or_introl eq_refl) Ht).
    + rewrite IH. split.
      * intros H r' [<-|Hin] Ht' Hn; [|now apply (H r' Hin Ht')].
        assert (Flow.is_table name r = true) by now apply is_table_spec.
        congruence.
      * intros H r' Hin. apply H. now right.
Qed.

(** With the table in the catalog the method stores its declaration and
    returns. *)
Lemma inspect_with_table (env : Flow.Env) (sys : Flow.Sys) (path : string)
    (row : Flow.MasterRow) :
  Flow.cursor (Flow.self sys) = Some path ->
  Flow.fetchone (Flow.table_name (Flow.self sys)) (Flow.store sys) = Some row ->
  exists sys',
    Flow.inspect_database_structure env sys = (sys', None) /\
    Flow.database_structure (Flow.state (Flow.self sys')) = Flow.m_sql row.
Proof.
  intros Hc Hf. unfold Flow.inspect_database_structure. cbn [Flow.log Flow.self Flow.store].
  rewrite Hc, Hf. eexists. split; reflexivity.
Qed.

(** A run in which every call succeeds goes through the four methods. *)
Example kickoff_example :
  exists sys,
    Flow.kickoff flow_env "How many tickets are open?" [] = (sys, None) /\
    Flow.answer (Flow.state (Flow.self sys)) = "42 tickets are open." /\
    Flow.crew_invoked (Flow.trace sys) = true.
Proof.
  eexists. repeat split.
Qed.

(** C10. When the store has no table under the flow's table name, the
    inspect method fails with the error the specification calls
    TableNotFound and leaves the flow state as it was; a run that reaches the
    method ends there with that error, after the print and the catalog query
    and before the method that calls the agent, so the agent is not invoked. *)
Theorem inspect_without_table_is_fatal (env : Flow.Env) (sys : Flow.Sys) (path : string) :
  Flow.cursor (Flow.self sys) = Some path ->
  (forall r, In r (Flow.store sys) -> Flow.m_type r = "table" ->
             Flow.m_name r <> Flow.table_name (Flow.self sys)) ->
  exists sys',
    Flow.inspect_database_structure env sys = (sys', Some Flow.TableNotFound) /\
    Flow.run_methods env (Flow.chain_from Flow.m_inspect_database_structure) sys
      = (sys', Some Flow.TableNotFound) /\
    Flow.state (Flow.self sys') = Flow.state (Flow.self sys) /\
    Flow.trace sys' =
      (Flow.trace sys
         ++ [Flow.EvPrint ">>> Inspecting database structure";
             Flow.EvQuery (Flow.catalog_query (Flow.table_name (Flow.self sys)))])%list /\
    Flow.crew_invoked (Flow.trace sys') = Flow.crew_invoked (Flow.trace sys).
Proof.
  intros Hc Hno. apply fetchone_none in Hno.
  assert (Hi : Flow.inspect_database_structure env sys =
               (Flow.log (Flow.EvQuery (Flow.catalog_query (Flow.table_name (Flow.self sys))))
                  (Flow.log (Flow.EvPrint ">>> Inspecting database structure") sys),
                Some Flow.TableNotFound)).
  { unfold Flow.inspect_database_structure. cbn [Flow.log Flow.self Flow.store].
    now rewrite Hc, Hno. }
  eexists. split; [exact Hi|]. split; [|split; [|split]].
  - cbn [Flow.chain_from Flow.run_methods Flow.body]. now rewrite Hi.
  - reflexivity.
  - cbn [Flow.log Flow.trace]. now rewrite <- app_assoc.
  - cbn [Flow.log Flow.trace]. unfold Flow.crew_invoked.
    rewrite !existsb_app. cbn [existsb]. now rewrite !orb_false_r.
Qed.

Lemma inspect_without_table_is_fatal_witness :
  exists sys',
    Flow.run_methods flow_env (Flow.chain_from Flow.m_inspect_database_structure)
      (loaded other_catalog) = (sys', Some Flow.TableNotFound) /\
    Flow.state (Flow.self sys') = Flow.state (Flow.self (loaded other_catalog)) /\
    Flow.crew_invoked (Flow.trace sys') = false.
Proof.
  destruct (inspect_without_table_is_fatal flow_env (loaded other_catalog)
              "data/customer_support_tickets.db")
    as [sys' [_ [Hrun [Hst [_ Hcrew]]]]].
  - reflexivity.
  - intros r Hin Ht Hn. simpl in Hin.
    destruct Hin as [<-|[<-|[]]]; [discriminate Hn | discriminate Ht].
  - exists sys'. split; [exact Hrun|]. split; [exact Hst | exact Hcrew].
Defined.

(** * Further properties *)

(** ** The validator: what it accepts and what it reports *)

(** The verdict of the validator is a function of the trimmed, upper-cased
    text alone. *)
Lemma validate_by_query_upper (v v' : string) :
  upper (strip v) = upper (strip v') ->
  (forall e, validate_query_safety v = inl e <-> validate_query_safety v' = inl e) /\
  (validate_query_safety v = inr v <-> validate_query_safety v' = inr v').
Proof.
  intros H. unfold validate_query_safety. rewrite H.
  destruct (negb (startswith (upper (strip v')) "SELECT")).
  - split; [reflexivity | split; discriminate].
  - destruct (for_keyword dangerous_keywords (upper (strip v'))) as [e'|u].
    + split; [reflexivity | split; discriminate].
    + split; [split; discriminate | split; reflexivity].
Qed.

(** X1. The validator accepts a string exactly when its trimmed, upper-cased
    form begins with SELECT and none of the seven keywords occurs in it, and
    what it returns then is the string as it was given, untrimmed and in its
    own casing. *)
Theorem validate_accepts_iff (v w : string) :
  validate_query_safety v = inr w <->
  w = v /\
  (exists rest, upper (strip v) = "SELECT" ++ rest) /\
  (forall k, In k dangerous_keywords -> contains k (upper (strip v)) = false).
Proof.
  destruct (validate_cases v) as [[Hs Hv] | [[Hs [k [Hk [Hc Hv]]]] | [Hs [Hnone Hv]]]];
    rewrite Hv.
  - split; [discriminate|]. intros [_ [Hsel _]].
    apply prefix_spec in Hsel. unfold startswith in Hs. congruence.
  - split; [discriminate|]. intros [_ [_ Hnone]]. rewrite (Hnone k Hk) in Hc. discriminate.
  - split.
    + intros H. inversion H; subst w. split; [reflexivity|].
      split; [apply prefix_spec; exact Hs | exact Hnone].
    + intros [-> _]. reflexivity.
Qed.

(** The loop raises for the first keyword of its list that occurs. *)
Lemma for_keyword_first (ks : list string) (q k : string) :
  for_keyword ks q = inl (ForbiddenKeyword k) ->
  exists earlier later,
    ks = (earlier ++ k :: later)%list /\
    contains k q = true /\
    forall k', In k' earlier -> contains k' q = false.
Proof.
  induction ks as [|k0 ks IH]; simpl; [discriminate|].
  destruct (contains k0 q) eqn:Hc.
  - intros H. assert (Hk : ForbiddenKeyword k0 = ForbiddenKeyword k) by congruence.
    apply forbidden_keyword_inj in Hk. subst k0.
    exists [], ks. split; [reflexivity|]. split; [exact Hc | intros k' []].
  - intros H. destruct (IH H) as [earlier [later [-> [Hk Hearlier]]]].
    exists (k0 :: earlier), later. split; [reflexivity|]. split; [exact Hk|].
    intros k' [<-|Hin]; auto.
Qed.

(** X2. When several keywords occur in a statement, the error names the one
    that comes first in the list DROP, DELETE, INSERT, UPDATE, ALTER, CREATE,
    TRUNCATE, wherever the keywords stand in the statement. *)
Theorem first_keyword_reported (v k : string) :
  validate_query_safety v = inl (ForbiddenKeyword k) ->
  exists earlier later,
    dangerous_keywords = (earlier ++ k :: later)%list /\
    contains k (upper (strip v)) = true /\
    forall k', In k' earlier -> contains k' (upper (strip v)) = false.
Proof.
  intros Hv. apply for_keyword_first.
  unfold validate_query_safety in Hv.
  destruct (negb (startswith (upper (strip v)) "SELECT")).
  - inversion Hv.
  - destruct (for_keyword dangerous_keywords (upper (strip v))) as [e|u];
      [congruence | discriminate].
Qed.

Lemma first_keyword_reported_witness :
  exists earlier later,
    dangerous_keywords = (earlier ++ "DROP" :: later)%list /\
    contains "DROP" (upper (strip "select 1; delete from t; drop table t")) = true /\
    forall k', In k' earlier ->
               contains k' (upper (strip "select 1; delete from t; drop table t")) = false.
Proof.
  apply (first_keyword_reported "select 1; delete from t; drop table t" "DROP").
  reflexivity.
Defined.

(** X3. The verdict does not depend on casing nor on white space around the
    statement: a statement in any casing, with any white space before and
    after it, fails with the same error as the statement itself, and is
    accepted (and returned as given) exactly when the statement is. *)
Theorem verdict_ignores_case_and_padding (l v w r : string) :
  only_spaces l = true -> only_spaces r = true -> upper w = upper v ->
  (forall e, validate_query_safety (l ++ w ++ r) = inl e <-> validate_query_safety v = inl e) /\
  (validate_query_safety (l ++ w ++ r) = inr (l ++ w ++ r) <->
   validate_query_safety v = inr v).
Proof.
  intros Hl Hr Hw. apply validate_by_query_upper.
  now apply query_upper_padded_recased.
Qed.

Lemma verdict_ignores_case_and_padding_witness :
  (forall e, validate_query_safety ("  " ++ "Select Id From T" ++ " ") = inl e <->
             validate_query_safety "select id from t" = inl e) /\
  (validate_query_safety ("  " ++ "Select Id From T" ++ " ")
     = inr ("  " ++ "Select Id From T" ++ " ") <->
   validate_query_safety "select id from t" = inr "select id from t").
Proof.
  apply (verdict_ignores_case_and_padding "  " "select id from t" "Select Id From T" " ");
    reflexivity.
Defined.

(** ** The gateway: what a call does to the store *)

(** The five ways through [_run], told apart by its surroundings. *)
Lemma run_cases (env : Gateway.Env) (query database_path : string) :
  (exists e,
     path_exists env (full_db_path env database_path) = inl e /\
     _run env query database_path = (inr (error_text e), [EvLogError (error_text e)]))
  \/ (path_exists env (full_db_path env database_path) = inr false /\
      _run env query database_path =
        (inr ("Error: Database file not found at " ++ full_db_path env database_path), []))
  \/ (exists e,
        path_exists env (full_db_path env database_path) = inr true /\
        sqlite3_connect env (full_db_path env database_path) = Some e /\
        _run env query database_path = (inr (error_text e), [EvLogError (error_text e)]))
  \/ (exists e,
        path_exists env (full_db_path env database_path) = inr true /\
        sqlite3_connect env (full_db_path env database_path) = None /\
        execute_fetchall env (full_db_path env database_path) query = inl e /\
        _run env query database_path =
          (inr (error_text e),
           [EvConnect (full_db_path env database_path);
            EvExecute (full_db_path env database_path) query;
            EvRollback (full_db_path env database_path);
            EvLogError (error_text e)]))
  \/ (exists rows report,
        path_exists env (full_db_path env database_path) = inr true /\
        sqlite3_connect env (full_db_path env database_path) = None /\
        execute_fetchall env (full_db_path env database_path) query = inr rows /\
        _run env query database_path =
          (inr report,
           [EvConnect (full_db_path env database_path);
            EvExecute (full_db_path env database_path) query;
            EvCommit (full_db_path env database_path)])).
Proof.
  destruct (path_exists env (full_db_path env database_path)) as [e|[|]] eqn:Hp.
  - left. exists e. split; [reflexivity|]. now apply run_exists_raises.
  - right. right.
    destruct (sqlite3_connect env (full_db_path env database_path)) as [e|] eqn:Hc.
    + left. exists e. split; [reflexivity|]. split; [reflexivity|].
      now apply run_connect_raises.
    + right.
      destruct (execute_fetchall env (full_db_path env database_path) query)
        as [e|rows] eqn:He.
      * left. exists e. repeat (split; [reflexivity|]). now apply run_execute_raises.
      * right. destruct (run_execute_returns _ _ _ _ Hp Hc He) as [results [_ [_ Hrun]]].
        eexists rows, _. repeat (split; [reflexivity|]). exact Hrun.
  - right. left. split; [reflexivity|]. now apply run_no_file.
Qed.

Lemma run_returns (env : Gateway.Env) (query database_path : string) :
  exists report t, _run env query database_path = (inr report, t).
Proof.
  destruct (run_cases env query database_path)
    as [[e [_ H]] | [[_ H] | [[e [_ [_ H]]] | [[e [_ [_ [_ H]]]]
        | [rows [report [_ [_ [_ H]]]]]]]]];
    rewrite H; eauto.
Qed.


(** The only statement a call of [_run] executes is its own query, on the
    path it resolved. *)
Lemma run_executes_only_query (env : Gateway.Env) (query database_path path q : string) :
  In (EvExecute path q) (snd (_run env query database_path)) ->
  path = full_db_path env database_path /\ q = query.
Proof.
  destruct (run_cases env query database_path)
    as [[e [_ ->]] | [[_ ->] | [[e [_ [_ ->]]] | [[e [_ [_ [_ ->]]]]
        | [rows [report [_ [_ [_ ->]]]]]]]]];
    intros H; simpl in H;
    repeat (destruct H as [H|H]); try discriminate H; try contradiction;
    inversion H; auto.
Qed.

(** X5. A call through the schema either stops at the validator, with its
    error and nothing done, or is the call of [_run] on the query as given
    and the given path (the default path when none is given), which returns
    a report: no other exception leaves the call. *)
Theorem schema_call_cases (env : Gateway.Env) (raw_query : string) (raw_path : option string) :
  (exists e,
     validate_query_safety raw_query = inl e /\
     call_with_schema env raw_query raw_path = (inl e, []))
  \/ (validate_query_safety raw_query = inr raw_query /\
      exists report t,
        call_with_schema env raw_query raw_path = (inr report, t) /\
        _run env raw_query
          (match raw_path with Some p => p | None => "data/customer_support_tickets.db" end)
        = (inr report, t)).
Proof.
  destruct (validate_cases raw_query) as [[_ Hv] | [[_ [k [_ [_ Hv]]]] | [_ [_ Hv]]]].
  - left. eexists. split; [exact Hv|]. now apply call_with_schema_rejected.
  - left. eexists. split; [exact Hv|]. now apply call_with_schema_rejected.
  - right. split; [exact Hv|].
    destruct (run_returns env raw_query
                (match raw_path with Some p => p | None => default_database_path end))
      as [report [t Hrun]].
    exists report, t. split; [|exact Hrun].
    unfold call_with_schema, parse_args, lift, bind. rewrite Hv.
    cbn [query Validator.database_path]. rewrite Hrun. reflexivity.
Qed.

(** X6. Whatever a call through the schema executes has passed the
    validator: it is the query as given, its trimmed, upper-cased form
    begins with SELECT, and none of the seven keywords occurs in it. *)
Theorem schema_call_executes_only_validated (env : Gateway.Env) (raw_query : string)
    (raw_path : option string) (path q : string) :
  In (EvExecute path q) (snd (call_with_schema env raw_query raw_path)) ->
  q = raw_query /\
  validate_query_safety raw_query = inr raw_query /\
  startswith (upper (strip q)) "SELECT" = true /\
  forall k, In k dangerous_keywords -> contains k (upper (strip q)) = false.
Proof.
  destruct (validate_cases raw_query)
    as [[_ Hv] | [[_ [k [_ [_ Hv]]]] | [Hs [Hnone Hv]]]].
  - rewrite (call_with_schema_rejected env raw_query raw_path _ Hv). intros [].
  - rewrite (call_with_schema_rejected env raw_query raw_path _ Hv). intros [].
  - unfold call_with_schema, parse_args, lift, bind. rewrite Hv.
    cbn [query Validator.database_path].
    destruct (_run env raw_query
                (match raw_path with Some p => p | None => default_database_path end))
      as [res t] eqn:Hrun.
    cbn [snd app]. intros Hin.
    assert (Hin' : In (EvExecute path q)
                     (snd (_run env raw_query
                             (match raw_path with
                              | Some p => p
                              | None => default_database_path
                              end)))) by now rewrite Hrun.
    apply run_executes_only_query in Hin'. destruct Hin' as [_ ->]. auto.
Qed.

Lemma schema_call_executes_only_validated_witness :
  "SELECT * FROM customer_support_tickets" = "SELECT * FROM customer_support_tickets" /\
  validate_query_safety "SELECT * FROM customer_support_tickets"
    = inr "SELECT * FROM customer_support_tickets" /\
  startswith (upper (strip "SELECT * FROM customer_support_tickets")) "SELECT" = true /\
  forall k, In k dangerous_keywords ->
            contains k (upper (strip "SELECT * FROM customer_support_tickets")) = false.
Proof.
  apply (schema_call_executes_only_validated (env_tickets 1)
           "SELECT * FROM customer_support_tickets" None
           "/srv/app/data/customer_support_tickets.db"
           "SELECT * FROM customer_support_tickets").
  simpl. right. left. reflexivity.
Defined.

(** ** The gateway: failures and small results *)

(** X7. When the store raises on the query, [_run] returns the error's own
    text after "SQLite error: " for an [sqlite3.Error] and after "Unexpected
    error executing query: " for any other exception; the transaction is
    rolled back, not committed, and the returned text is logged once. *)
Theorem execution_error_reported (env : Gateway.Env) (query database_path : string)
    (e : PyExc) :
  path_exists env (full_db_path env database_path) = inr true ->
  sqlite3_connect env (full_db_path env database_path) = None ->
  execute_fetchall env (full_db_path env database_path) query = inl e ->
  exists msg,
    msg = (if is_sqlite3_Error e
           then "SQLite error: "
           else "Unexpected error executing query: ") ++ str_exc e /\
    _run env query database_path =
      (inr msg,
       [EvConnect (full_db_path env database_path);
        EvExecute (full_db_path env database_path) query;
        EvRollback (full_db_path env database_path);
        EvLogError msg]).
Proof.
  intros Hp Hc He. exists (error_text e). split; [apply error_text_by_class|].
  now apply run_execute_raises.
Qed.

Lemma execution_error_reported_witness :
  exists msg,
    msg = "SQLite error: " ++ "no such table: tickets" /\
    _run env_no_table "SELECT * FROM tickets" default_database_path =
      (inr msg,
       [EvConnect (full_db_path env_no_table default_database_path);
        EvExecute (full_db_path env_no_table default_database_path) "SELECT * FROM tickets";
        EvRollback (full_db_path env_no_table default_database_path);
        EvLogError msg]).
Proof.
  apply (execution_error_reported env_no_table "SELECT * FROM tickets"
           default_database_path (Sqlite3Error "no such table: tickets"));
    reflexivity.
Defined.

(** X8. When the file exists and the connection cannot be opened, [_run]
    returns the error's text behind the prefix of its class and logs it;
    the query is not executed and there is no transaction to end. *)
Theorem connection_error_reported (env : Gateway.Env) (query database_path : string)
    (e : PyExc) :
  path_exists env (full_db_path env database_path) = inr true ->
  sqlite3_connect env (full_db_path env database_path) = Some e ->
  exists msg,
    msg = (if is_sqlite3_Error e
           then "SQLite error: "
           else "Unexpected error executing query: ") ++ str_exc e /\
    _run env query database_path = (inr msg, [EvLogError msg]) /\
    ~ executes query (snd (_run env query database_path)).
Proof.
  intros Hp Hc. exists (error_text e). split; [apply error_text_by_class|].
  rewrite (run_connect_raises env query database_path e Hp Hc).
  split; [reflexivity|]. intros [path [H|[]]]. discriminate H.
Qed.

Lemma connection_error_reported_witness :
  exists msg,
    msg = "SQLite error: " ++ "unable to open database file" /\
    _run env_cannot_open "SELECT 1" "data" = (inr msg, [EvLogError msg]) /\
    ~ executes "SELECT 1" (snd (_run env_cannot_open "SELECT 1" "data")).
Proof.
  apply (connection_error_reported env_cannot_open "SELECT 1" "data"
           (Sqlite3Error "unable to open database file"));
    reflexivity.
Defined.



(** X10. The text shown for a value is never longer than 100 characters, and
    a value whose text has at most 100 characters is shown as it is. *)
Theorem display_bounded (value : sql_value) :
  String.length (display value) <= 100 /\
  (String.length (str_value value) <= 100 -> display value = str_value value).
Proof.
  split; [|apply display_short].
  unfold display. destruct (100 <? String.length (str_value value)) eqn:H.
  - apply Nat.ltb_lt in H. rewrite length_append, length_slice_to by lia. simpl. lia.
  - now apply Nat.ltb_ge in H.
Qed.

(** ** Rows with repeated column names *)

Lemma in_dict_setitem (d : dict) (k : string) (v : sql_value) (k' : string) (v' : sql_value) :
  In (k', v') (dict_setitem d k v) -> (k' = k /\ v' = v) \/ In (k', v') d.
Proof.
  induction d as [|[k0 v0] d IH]; simpl.
  - intros [H|[]]. inversion H. auto.
  - destruct (String.eqb k0 k) eqn:Hk.
    + apply String.eqb_eq in Hk. subst k0. intros [H|H]; [inversion H|]; auto.
    + intros [H|H]; [auto|]. destruct (IH H); auto.
Qed.

Lemma keys_dict_setitem (d : dict) (k : string) (v : sql_value) (k' : string) :
  In k' (keys (dict_setitem d k v)) <-> In k' (keys d) \/ k' = k.
Proof.
  unfold keys. induction d as [|[k0 v0] d IH]; simpl.
  - intuition.
  - destruct (String.eqb k0 k) eqn:Hk; simpl.
    + apply String.eqb_eq in Hk. subst k0. intuition.
    + rewrite IH. intuition.
Qed.

Lemma dict_setitem_new (d : dict) (k : string) (v : sql_value) :
  ~ In k (keys d) -> dict_setitem d k v = (d ++ [(k, v)])%list.
Proof.
  unfold keys. induction d as [|[k0 v0] d IH]; simpl; [reflexivity|].
  intros Hn. destruct (String.eqb k0 k) eqn:Hk.
  - apply String.eqb_eq in Hk. subst k0. elim Hn. now left.
  - rewrite IH; [reflexivity|]. intros H. apply Hn. now right.
Qed.

Lemma NoDup_keys_dict_setitem (d : dict) (k : string) (v : sql_value) :
  NoDup (keys d) -> NoDup (keys (dict_setitem d k v)).
Proof.
  unfold keys. induction d as [|[k0 v0] d IH]; simpl; intros Hd.
  - constructor; [intros [] | constructor].
  - inversion Hd as [|x l Hnot Hrest]; subst.
    destruct (String.eqb k0 k) eqn:Hk; simpl.
    + now constructor.
    + constructor; [|now apply IH].
      intros Hin. apply (keys_dict_setitem d k v k0) in Hin. destruct Hin as [Hin|Heq].
      * now apply Hnot.
      * subst k0. rewrite String.eqb_refl in Hk. discriminate.
Qed.

(** What the loop of [dict(row)] keeps true of the dictionary it fills. *)
Lemma dict_update_invariants (row : Row) (ks : list string) (d d' : dict) :
  dict_update d row ks = inr d' ->
  (NoDup (keys d) -> NoDup (keys d')) /\
  (forall k, In k (keys d') <-> In k (keys d) \/ In k ks) /\
  ((forall k v, In (k, v) d -> Row_getitem row k = inr v) ->
   forall k v, In (k, v) d' -> Row_getitem row k = inr v).
Proof.
  revert d; induction ks as [|key ks IH]; intros d; simpl.
  - intros H. inversion H; subst d'. repeat split; auto; intuition.
  - destruct (Row_getitem row key) as [e|value] eqn:Hg; [discriminate|].
    intros H. destruct (IH _ H) as [Hnd [Hkeys Hvals]].
    split; [|split].
    + intros Hd. apply Hnd. now apply NoDup_keys_dict_setitem.
    + intros k. rewrite Hkeys, keys_dict_setitem. intuition.
    + intros Hd. apply Hvals. intros k v Hin.
      destruct (in_dict_setitem _ _ _ _ _ Hin) as [[-> ->]|Hin']; auto.
Qed.

(** X11. [dict(row)] never raises. Its keys are the column names of the row,
    each once, however often a name is repeated in the row; the value under
    a key is what the row gives when it is asked for that name, which is the
    value of the first column whose name equals the key ignoring case. *)
Theorem dict_of_Row_keys_and_values (row : Row) :
  exists d,
    dict_of_Row row = inr d /\
    NoDup (keys d) /\
    (forall k, In k (keys d) <-> In k (map fst row)) /\
    (forall k v, In (k, v) d -> Row_getitem row k = inr v).
Proof.
  destruct (dict_of_Row_total row) as [d Hd]. exists d. split; [exact Hd|].
  destruct (dict_update_invariants row (map fst row) [] d Hd) as [Hnd [Hkeys Hvals]].
  split; [apply Hnd; constructor|]. split.
  - intros k. rewrite Hkeys. simpl. intuition.
  - apply Hvals. intros k v [].
Qed.

Example dict_of_repeated_names :
  dict_of_Row row_repeated_names = inr [("x", SqlInteger 1); ("X", SqlInteger 1)].
Proof.
  reflexivity.
Qed.

Lemma lower_char_idempotent (c : ascii) : lower_char (lower_char c) = lower_char c.
Proof.
  destruct c as [[] [] [] [] [] [] [] []]; reflexivity.
Qed.

(** Two names are equal for [sqlite3.Row] exactly when their lower-cased
    forms are the same. *)
Lemma equal_ignore_case_lower (a b : string) :
  equal_ignore_case a b = true <-> lower a = lower b.
Proof.
  unfold equal_ignore_case. rewrite orb_true_iff, !String.eqb_eq.
  split; [intros [->|H]; auto | auto].
Qed.

Lemma Row_getitem_skip (pre rest : Row) (k : string) (v : sql_value) :
  ~ In (lower k) (map (fun c => lower (fst c)) pre) ->
  Row_getitem (pre ++ (k, v) :: rest)%list k = inr v.
Proof.
  induction pre as [|[name value] pre IH]; simpl; intros Hn.
  - now rewrite equal_ignore_case_refl.
  - destruct (equal_ignore_case k name) eqn:He.
    + apply equal_ignore_case_lower in He. elim Hn. left. now symmetry.
    + apply IH. intros H. apply Hn. now right.
Qed.

Lemma dict_update_distinct (suf pre : Row) :
  NoDup (map (fun c => lower (fst c)) (pre ++ suf)%list) ->
  dict_update pre (pre ++ suf)%list (map fst suf) = inr (pre ++ suf)%list.
Proof.
  revert pre; induction suf as [|[k v] suf IH]; intros pre Hnd; simpl.
  - now rewrite app_nil_r.
  - assert (Hn : ~ In (lower k) (map (fun c => lower (fst c)) pre)).
    { rewrite map_app in Hnd. simpl in Hnd. apply NoDup_remove_2 in Hnd.
      intros H. apply Hnd. apply in_or_app. now left. }
    rewrite (Row_getitem_skip pre suf k v Hn).
    rewrite dict_setitem_new.
    + replace (pre ++ (k, v) :: suf)%list with ((pre ++ [(k, v)]) ++ suf)%list
        by (rewrite <- app_assoc; reflexivity).
      apply IH. rewrite <- app_assoc. exact Hnd.
    + intros H. apply Hn. unfold keys in H. apply in_map_iff in H.
      destruct H as [[k0 v0] [Hk Hin]]. simpl in Hk. subst k0.
      apply in_map_iff. now exists (k, v0).
Qed.

(** X12. For a row whose column names differ from one another even when case
    is ignored, [dict(row)] holds the columns of the row in their order, each
    with its own value. *)
Theorem dict_of_Row_distinct (row : Row) :
  NoDup (map (fun c => lower (fst c)) row) -> dict_of_Row row = inr row.
Proof.
  intros Hnd. unfold dict_of_Row. apply (dict_update_distinct row []). exact Hnd.
Qed.

Lemma dict_of_Row_distinct_witness : dict_of_Row (ticket 7) = inr (ticket 7).
Proof.
  apply (dict_of_Row_distinct (ticket 7)).
  simpl. repeat constructor; simpl; intuition discriminate.
Defined.

(** ** The flow: loading and inspecting *)

Lemma is_table_new (name sql : string) :
  Flow.is_table name
    {| Flow.m_type := "table"; Flow.m_name := name; Flow.m_tbl_name := name;
       Flow.m_sql := sql |} = true.
Proof.
  unfold Flow.is_table. cbn [Flow.m_type Flow.m_name]. now rewrite !String.eqb_refl.
Qed.

Lemma belongs_to_new (name sql : string) :
  Flow.belongs_to name
    {| Flow.m_type := "table"; Flow.m_name := name; Flow.m_tbl_name := name;
       Flow.m_sql := sql |} = true.
Proof.
  unfold Flow.belongs_to. now rewrite is_table_new.
Qed.

(** After a replacement, the catalog query finds the new declaration. *)
Lemma fetchone_replace_table (name sql : string) (d : Flow.Database) :
  Flow.fetchone name (Flow.replace_table name sql d) =
    Some {| Flow.m_type := "table"; Flow.m_name := name; Flow.m_tbl_name := name;
            Flow.m_sql := sql |}.
Proof.
  unfold Flow.fetchone, Flow.replace_table. induction d as [|r d IH]; simpl.
  - now rewrite is_table_new.
  - destruct (Flow.belongs_to name r) eqn:Hr; simpl; [exact IH|].
    unfold Flow.belongs_to in Hr. apply orb_false_iff in Hr. destruct Hr as [Hr _].
    now rewrite Hr.
Qed.


Lemma filter_own_replace_table (name sql : string) (d : Flow.Database) :
  filter (Flow.belongs_to name) (Flow.replace_table name sql d) =
    [{| Flow.m_type := "table"; Flow.m_name := name; Flow.m_tbl_name := name;
        Flow.m_sql := sql |}].
Proof.
  unfold Flow.replace_table. rewrite filter_app. cbn [filter].
  rewrite belongs_to_new.
  assert (H0 : filter (Flow.belongs_to name)
                 (filter (fun r => negb (Flow.belongs_to name r)) d) = []).
  { induction d as [|r d IH]; simpl; [reflexivity|].
    destruct (Flow.belongs_to name r) eqn:Hr; simpl; [exact IH | now rewrite Hr]. }
  now rewrite H0.
Qed.

(** The system a successful [load_dataset] leaves. *)
Lemma load_dataset_inv (env : Flow.Env) (sys sys1 : Flow.Sys) :
  Flow.load_dataset env sys = (sys1, None) <->
  exists df sql,
    Flow.read_csv env (Flow.csv_data_path (Flow.self sys)) = inr df /\
    Flow.connect env (Flow.database_path (Flow.self sys)) = None /\
    Flow.to_sql env df (Flow.table_name (Flow.self sys)) = inr sql /\
    sys1 =
      {| Flow.self :=
           {| Flow.state := Flow.state (Flow.self sys);
              Flow.table_name := Flow.table_name (Flow.self sys);
              Flow.csv_data_path := Flow.csv_data_path (Flow.self sys);
              Flow.database_path := Flow.database_path (Flow.self sys);
              Flow.conn := Some (Flow.database_path (Flow.self sys));
              Flow.cursor := Some (Flow.database_path (Flow.self sys)) |};
         Flow.store :=
           Flow.replace_table (Flow.table_name (Flow.self sys)) sql (Flow.store sys);
         Flow.trace :=
           (Flow.trace sys
              ++ [Flow.EvPrint ">>> Loading dataset";
                  Flow.EvReadCsv (Flow.csv_data_path (Flow.self sys));
                  Flow.EvConnect (Flow.database_path (Flow.self sys));
                  Flow.EvToSql (Flow.table_name (Flow.self sys))])%list |}.
Proof.
  unfold Flow.load_dataset.
  cbn [Flow.log Flow.set_self Flow.set_store Flow.self Flow.store Flow.trace
       Flow.table_name Flow.csv_data_path Flow.database_path Flow.state].
  destruct (Flow.read_csv env (Flow.csv_data_path (Flow.self sys))) as [e|df].
  { split; [discriminate | intros [df [sql [H _]]]; discriminate]. }
  destruct (Flow.connect env (Flow.database_path (Flow.self sys))) as [e|].
  { split; [discriminate | intros [df' [sql [_ [H _]]]]; discriminate]. }
  destruct (Flow.to_sql env df (Flow.table_name (Flow.self sys))) as [e|sql] eqn:Hsql.
  { split; [discriminate|]. intros [df' [sql [H [_ [H' _]]]]].
    inversion H; subst df'. congruence. }
  unfold Flow.set_store, Flow.set_self, Flow.log. cbn [Flow.self Flow.store Flow.trace].
  rewrite <- !app_assoc. cbn [app]. split.
  - intros H. inversion H. exists df, sql. auto.
  - intros [df' [sql' [H [_ [H' ->]]]]]. inversion H; subst df'.
    rewrite Hsql in H'. inversion H'; subst sql'. reflexivity.
Qed.

(** X13. After [load_dataset] has returned, [inspect_database_structure]
    returns too and stores in the flow state the declaration of the table
    that the load created, whatever the catalog held before, a table of the
    same name with another declaration included. *)
Theorem load_then_inspect (env : Flow.Env) (sys sys1 : Flow.Sys) :
  Flow.load_dataset env sys = (sys1, None) ->
  exists df sql sys2,
    Flow.read_csv env (Flow.csv_data_path (Flow.self sys)) = inr df /\
    Flow.to_sql env df (Flow.table_name (Flow.self sys)) = inr sql /\
    Flow.inspect_database_structure env sys1 = (sys2, None) /\
    Flow.database_structure (Flow.state (Flow.self sys2)) = sql.
Proof.
  intros Hload. apply load_dataset_inv in Hload.
  destruct Hload as [df [sql [Hr [_ [Hs ->]]]]].
  exists df, sql.
  match goal with |- context [Flow.inspect_database_structure env ?s] =>
    destruct (inspect_with_table env s (Flow.database_path (Flow.self sys))
                {| Flow.m_type := "table"; Flow.m_name := Flow.table_name (Flow.self sys);
                   Flow.m_tbl_name := Flow.table_name (Flow.self sys);
                   Flow.m_sql := sql |}) as [sys2 [Hi Hd]]
  end.
  - reflexivity.
  - cbn [Flow.self Flow.store Flow.table_name]. apply fetchone_replace_table.
  - exists sys2. auto.
Qed.

Lemma load_then_inspect_witness :
  exists df sql sys2,
    Flow.read_csv flow_env
      (Flow.csv_data_path (Flow.self (fresh "How many tickets are open?" prior_catalog)))
      = inr df /\
    Flow.to_sql flow_env df
      (Flow.table_name (Flow.self (fresh "How many tickets are open?" prior_catalog)))
      = inr sql /\
    Flow.inspect_database_structure flow_env
      (fst (Flow.load_dataset flow_env (fresh "How many tickets are open?" prior_catalog)))
      = (sys2, None) /\
    Flow.database_structure (Flow.state (Flow.self sys2)) = sql.
Proof.
  apply (load_then_inspect flow_env (fresh "How many tickets are open?" prior_catalog)).
  reflexivity.
Defined.

(** X14. Loading replaces the table in the catalog: after a load that
    returned, the catalog holds exactly one row that belongs to the flow's
    table, the row of the table with the declaration the load created; the
    row of a table of that name from before, and the rows of its indexes and
    triggers, are gone. *)
Theorem load_replaces_table (env : Flow.Env) (sys sys1 : Flow.Sys) :
  Flow.load_dataset env sys = (sys1, None) ->
  exists df sql,
    Flow.read_csv env (Flow.csv_data_path (Flow.self sys)) = inr df /\
    Flow.to_sql env df (Flow.table_name (Flow.self sys)) = inr sql /\
    filter (Flow.belongs_to (Flow.table_name (Flow.self sys))) (Flow.store sys1) =
      [{| Flow.m_type := "table";
          Flow.m_name := Flow.table_name (Flow.self sys);
          Flow.m_tbl_name := Flow.table_name (Flow.self sys);
          Flow.m_sql := sql |}].
Proof.
  intros Hload. apply load_dataset_inv in Hload.
  destruct Hload as [df [sql [Hr [_ [Hs ->]]]]].
  exists df, sql. split; [exact Hr|]. split; [exact Hs|].
  cbn [Flow.store]. apply filter_own_replace_table.
Qed.

Lemma load_replaces_table_witness :
  exists df sql,
    Flow.read_csv flow_env
      (Flow.csv_data_path (Flow.self (fresh "How many tickets are open?" prior_catalog)))
      = inr df /\
    Flow.to_sql flow_env df
      (Flow.table_name (Flow.self (fresh "How many tickets are open?" prior_catalog)))
      = inr sql /\
    filter
      (Flow.belongs_to
         (Flow.table_name (Flow.self (fresh "How many tickets are open?" prior_catalog))))
      (Flow.store
         (fst (Flow.load_dataset flow_env
                 (fresh "How many tickets are open?" prior_catalog)))) =
      [{| Flow.m_type := "table";
          Flow.m_name :=
            Flow.table_name (Flow.self (fresh "How many tickets are open?" prior_catalog));
          Flow.m_tbl_name :=
            Flow.table_name (Flow.self (fresh "How many tickets are open?" prior_catalog));
          Flow.m_sql := sql |}].
Proof.
  apply (load_replaces_table flow_env (fresh "How many tickets are open?" prior_catalog)).
  reflexivity.
Defined.

(** The load on a catalog that already holds the table, an index and a
    trigger on it: the three rows go, the rows of the other table stay, the
    new row of the table comes last. *)
Example load_on_prior_catalog :
  Flow.store (fst (Flow.load_dataset flow_env
                     (fresh "How many tickets are open?" prior_catalog))) =
    [{| Flow.m_type := "table"; Flow.m_name := "tickets_2019";
        Flow.m_tbl_name := "tickets_2019";
        Flow.m_sql := "CREATE TABLE tickets_2019 (id TEXT)" |};
     {| Flow.m_type := "index"; Flow.m_name := "ix_2019_id";
        Flow.m_tbl_name := "tickets_2019";
        Flow.m_sql := "CREATE INDEX ix_2019_id ON tickets_2019 (id)" |};
     {| Flow.m_type := "table"; Flow.m_name := "customer_support_tickets";
        Flow.m_tbl_name := "customer_support_tickets";
        Flow.m_sql := "CREATE TABLE customer_support_tickets (x TEXT)" |}].
Proof.
  reflexivity.
Qed.



(** ** The flow: whole runs *)

(** The decorators chain the four methods one after another. *)
Lemma chain_follows_listen (m m' : Flow.Method) :
  Flow.trigger m' = Some m -> Flow.chain_from m = m :: Flow.chain_from m'.
Proof.
  destruct m, m'; simpl; intros H; try discriminate H; reflexivity.
Qed.

(** X16. When the CSV file is read, the store opens, the table is written,
    the agent answers and the summary file is written, a run goes through
    the four methods in order and raises nothing: the agent is given the
    user's prompt, the declaration the inspection found and the path of the
    store; its answer is in the flow state and in the summary file; the
    connection is closed last. *)
Theorem kickoff_runs_all_stages (env : Flow.Env) (prompt : string) (d : Flow.Database)
    (df : Flow.DataFrame) (sql raw : string) :
  Flow.read_csv env "data/customer_support_tickets.csv" = inr df ->
  Flow.connect env "data/customer_support_tickets.db" = None ->
  Flow.to_sql env df "customer_support_tickets" = inr sql ->
  Flow.crew_kickoff env prompt sql "data/customer_support_tickets.db" = inr raw ->
  Flow.write_file env "executive_summary.md" raw = None ->
  exists sys,
    Flow.kickoff env prompt d = (sys, None) /\
    Flow.state (Flow.self sys) =
      {| Flow.database_structure := sql; Flow.user_prompt := prompt; Flow.answer := raw |} /\
    Flow.trace sys =
      [Flow.EvPrint ">>> Loading dataset";
       Flow.EvReadCsv "data/customer_support_tickets.csv";
       Flow.EvConnect "data/customer_support_tickets.db";
       Flow.EvToSql "customer_support_tickets";
       Flow.EvPrint ">>> Inspecting database structure";
       Flow.EvQuery
         "SELECT sql FROM sqlite_master WHERE type='table' AND name='customer_support_tickets'";
       Flow.EvPrint ">>> Answering user prompt";
       Flow.EvCrewKickoff prompt sql "data/customer_support_tickets.db";
       Flow.EvWriteFile "executive_summary.md" raw;
       Flow.EvPrint ">>> Closing connection";
       Flow.EvClose "data/customer_support_tickets.db"].
Proof.
  intros Hr Hc Hs Hk Hw.
  unfold Flow.kickoff. cbn [Flow.chain_from Flow.run_methods Flow.body].
  unfold Flow.load_dataset. simpl. rewrite Hr, Hc, Hs.
  unfold Flow.inspect_database_structure. simpl.
  pose proof (fetchone_replace_table "customer_support_tickets" sql d) as Hf.
  simpl in Hf. rewrite Hf.
  unfold Flow.answer_user_prompt. simpl. rewrite Hk, Hw.
  unfold Flow.close_connection. simpl.
  eexists. repeat split.
Qed.

Lemma kickoff_runs_all_stages_witness :
  exists sys,
    Flow.kickoff flow_env "How many tickets are open?" prior_catalog = (sys, None) /\
    Flow.state (Flow.self sys) =
      {| Flow.database_structure := "CREATE TABLE customer_support_tickets (x TEXT)";
         Flow.user_prompt := "How many tickets are open?";
         Flow.answer := "42 tickets are open." |} /\
    Flow.trace sys =
      [Flow.EvPrint ">>> Loading dataset";
       Flow.EvReadCsv "data/customer_support_tickets.csv";
       Flow.EvConnect "data/customer_support_tickets.db";
       Flow.EvToSql "customer_support_tickets";
       Flow.EvPrint ">>> Inspecting database structure";
       Flow.EvQuery
         "SELECT sql FROM sqlite_master WHERE type='table' AND name='customer_support_tickets'";
       Flow.EvPrint ">>> Answering user prompt";
       Flow.EvCrewKickoff "How many tickets are open?"
         "CREATE TABLE customer_support_tickets (x TEXT)" "data/customer_support_tickets.db";
       Flow.EvWriteFile "executive_summary.md" "42 tickets are open.";
       Flow.EvPrint ">>> Closing connection";
       Flow.EvClose "data/customer_support_tickets.db"].
Proof.
  apply (kickoff_runs_all_stages flow_env "How many tickets are open?" prior_catalog
           (["Ticket ID"], [["1"]]) "CREATE TABLE customer_support_tickets (x TEXT)"
           "42 tickets are open."); reflexivity.
Defined.

(** X17. When the CSV file cannot be read, the run ends in [load_dataset]
    with the exception of the reader: no connection is opened, the store is
    not touched, the flow state is as [__init__] made it, and neither the
    inspection nor the agent runs. *)
Theorem unreadable_csv_ends_run (env : Flow.Env) (prompt : string) (d : Flow.Database)
    (e : PyExc) :
  Flow.read_csv env "data/customer_support_tickets.csv" = inl e ->
  Flow.kickoff env prompt d =
    ({| Flow.self := Flow.init prompt;
        Flow.store := d;
        Flow.trace := [Flow.EvPrint ">>> Loading dataset";
                       Flow.EvReadCsv "data/customer_support_tickets.csv"] |},
     Some e).
Proof.
  intros Hr. unfold Flow.kickoff. cbn [Flow.chain_from Flow.run_methods Flow.body].
  unfold Flow.load_dataset. simpl. now rewrite Hr.
Qed.

Lemma unreadable_csv_ends_run_witness :
  Flow.kickoff flow_env_no_csv "How many tickets are open?" other_catalog =
    ({| Flow.self := Flow.init "How many tickets are open?";
        Flow.store := other_catalog;
        Flow.trace := [Flow.EvPrint ">>> Loading dataset";
                       Flow.EvReadCsv "data/customer_support_tickets.csv"] |},
     Some (OtherException "No such file or directory")).
Proof.
  apply (unreadable_csv_ends_run flow_env_no_csv "How many tickets are open?" other_catalog
           (OtherException "No such file or directory")).
  reflexivity.
Defined.

(** X18. When the agent raises, the run ends in [answer_user_prompt] with
    that exception: the answer in the flow state stays empty, no summary
    file is written, and [close_connection] does not run, so the connection
    opened by the load is still bound to the flow and was never closed. *)
Theorem agent_failure_skips_close (env : Flow.Env) (prompt : string) (d : Flow.Database)
    (df : Flow.DataFrame) (sql : string) (e : PyExc) :
  Flow.read_csv env "data/customer_support_tickets.csv" = inr df ->
  Flow.connect env "data/customer_support_tickets.db" = None ->
  Flow.to_sql env df "customer_support_tickets" = inr sql ->
  Flow.crew_kickoff env prompt sql "data/customer_support_tickets.db" = inl e ->
  exists sys,
    Flow.kickoff env prompt d = (sys, Some e) /\
    Flow.state (Flow.self sys) =
      {| Flow.database_structure := sql; Flow.user_prompt := prompt; Flow.answer := "" |} /\
    Flow.conn (Flow.self sys) = Some "data/customer_support_tickets.db" /\
    Flow.trace sys =
      [Flow.EvPrint ">>> Loading dataset";
       Flow.EvReadCsv "data/customer_support_tickets.csv";
       Flow.EvConnect "data/customer_support_tickets.db";
       Flow.EvToSql "customer_support_tickets";
       Flow.EvPrint ">>> Inspecting database structure";
       Flow.EvQuery
         "SELECT sql FROM sqlite_master WHERE type='table' AND name='customer_support_tickets'";
       Flow.EvPrint ">>> Answering user prompt";
       Flow.EvCrewKickoff prompt sql "data/customer_support_tickets.db"].
Proof.
  intros Hr Hc Hs Hk.
  unfold Flow.kickoff. cbn [Flow.chain_from Flow.run_methods Flow.body].
  unfold Flow.load_dataset. simpl. rewrite Hr, Hc, Hs.
  unfold Flow.inspect_database_structure. simpl.
  pose proof (fetchone_replace_table "customer_support_tickets" sql d) as Hf.
  simpl in Hf. rewrite Hf.
  unfold Flow.answer_user_prompt. simpl. rewrite Hk.
  eexists. repeat split.
Qed.

Lemma agent_failure_skips_close_witness :
  exists sys,
    Flow.kickoff flow_env_agent_fails "How many tickets are open?" [] =
      (sys, Some (OtherException "agent stopped")) /\
    Flow.state (Flow.self sys) =
      {| Flow.database_structure := "CREATE TABLE customer_support_tickets (x TEXT)";
         Flow.user_prompt := "How many tickets are open?";
         Flow.answer := "" |} /\
    Flow.conn (Flow.self sys) = Some "data/customer_support_tickets.db" /\
    Flow.trace sys =
      [Flow.EvPrint ">>> Loading dataset";
       Flow.EvReadCsv "data/customer_support_tickets.csv";
       Flow.EvConnect "data/customer_support_tickets.db";
       Flow.EvToSql "customer_support_tickets";
       Flow.EvPrint ">>> Inspecting database structure";
       Flow.EvQuery
         "SELECT sql FROM sqlite_master WHERE type='table' AND name='customer_support_tickets'";
       Flow.EvPrint ">>> Answering user prompt";
       Flow.EvCrewKickoff "How many tickets are open?"
         "CREATE TABLE customer_support_tickets (x TEXT)" "data/customer_support_tickets.db"].
Proof.
  apply (agent_failure_skips_close flow_env_agent_fails "How many tickets are open?" []
           (["Ticket ID"], [["1"]]) "CREATE TABLE customer_support_tickets (x TEXT)"
           (OtherException "agent stopped")); reflexivity.
Defined.

(** X19. When the summary file cannot be written, the run ends in
    [answer_user_prompt] with that exception: the agent's answer is already
    in the flow state, and [close_connection] does not run. *)
Theorem write_failure_keeps_answer (env : Flow.Env) (prompt : string) (d : Flow.Database)
    (df : Flow.DataFrame) (sql raw : string) (e : PyExc) :
  Flow.read_csv env "data/customer_support_tickets.csv" = inr df ->
  Flow.connect env "data/customer_support_tickets.db" = None ->
  Flow.to_sql env df "customer_support_tickets" = inr sql ->
  Flow.crew_kickoff env prompt sql "data/customer_support_tickets.db" = inr raw ->
  Flow.write_file env "executive_summary.md" raw = Some e ->
  exists sys,
    Flow.kickoff env prompt d = (sys, Some e) /\
    Flow.answer (Flow.state (Flow.self sys)) = raw /\
    Flow.conn (Flow.self sys) = Some "data/customer_support_tickets.db" /\
    Flow.trace sys =
      [Flow.EvPrint ">>> Loading dataset";
       Flow.EvReadCsv "data/customer_support_tickets.csv";
       Flow.EvConnect "data/customer_support_tickets.db";
       Flow.EvToSql "customer_support_tickets";
       Flow.EvPrint ">>> Inspecting database structure";
       Flow.EvQuery
         "SELECT sql FROM sqlite_master WHERE type='table' AND name='customer_support_tickets'";
       Flow.EvPrint ">>> Answering user prompt";
       Flow.EvCrewKickoff prompt sql "data/customer_support_tickets.db"].
Proof.
  intros Hr Hc Hs Hk Hw.
  unfold Flow.kickoff. cbn [Flow.chain_from Flow.run_methods Flow.body].
  unfold Flow.load_dataset. simpl. rewrite Hr, Hc, Hs.
  unfold Flow.inspect_database_structure. simpl.
  pose proof (fetchone_replace_table "customer_support_tickets" sql d) as Hf.
  simpl in Hf. rewrite Hf.
  unfold Flow.answer_user_prompt. simpl. rewrite Hk, Hw.
  eexists. repeat split.
Qed.

Lemma write_failure_keeps_answer_witness :
  exists sys,
    Flow.kickoff flow_env_read_only_disk "How many tickets are open?" [] =
      (sys, Some (OtherException "Read-only file system")) /\
    Flow.answer (Flow.state (Flow.self sys)) = "42 tickets are open." /\
    Flow.conn (Flow.self sys) = Some "data/customer_support_tickets.db" /\
    Flow.trace sys =
      [Flow.EvPrint ">>> Loading dataset";
       Flow.EvReadCsv "data/customer_support_tickets.csv";
       Flow.EvConnect "data/customer_support_tickets.db";
       Flow.EvToSql "customer_support_tickets";
       Flow.EvPrint ">>> Inspecting database structure";
       Flow.EvQuery
         "SELECT sql FROM sqlite_master WHERE type='table' AND name='customer_support_tickets'";
       Flow.EvPrint ">>> Answering user prompt";
       Flow.EvCrewKickoff "How many tickets are open?"
         "CREATE TABLE customer_support_tickets (x TEXT)" "data/customer_support_tickets.db"].
Proof.
  apply (write_failure_keeps_answer flow_env_read_only_disk "How many tickets are open?" []
           (["Ticket ID"], [["1"]]) "CREATE TABLE customer_support_tickets (x TEXT)"
           "42 tickets are open." (OtherException "Read-only file system")); reflexivity.
Defined.
